(** * Synchronisation layer of the school LMS client: a shallow embedding

    Sources embedded here:
    - [src/utils/gamificationEngine.ts]      (achievement rule engine)
    - [src/contexts/StudentDataContext.tsx]  (notification merge, paginated
      activity feed, cache-first reads, quiz completion, class join, grade
      report)
    - [src/utils/achievements.ts]            (the two achievement reads of a
      refresh, as far as they decide its control flow and its reads)

    Conventions.  JavaScript numbers that hold counts, scores and
    timestamps are integers and are modelled by [Z]; grades and points, which
    may be fractional, are a type parameter [N]; an optional or possibly
    missing field is an [option]; [x || 0] is [num_or0].  A handler that
    awaits remote calls is modelled from its first statement to its last,
    with the outcome of each call as an input.  Firestore document
    ids are ordinary strings, objects used as dictionaries are [gmap string _];
    the members a plain object inherits from [Object.prototype] are modelled
    where the engine looks ids up in its unlocked map
    ([Engine.lookup_truthy]) and are not considered elsewhere.  *)

From stdpp Require Import base option list gmap strings sorting pretty.
From Stdlib Require Import ZArith Lia.

Local Open Scope string_scope.
Local Open Scope list_scope.
Local Open Scope Z_scope.

(** [x || 0] on an optional number: [undefined] and [0] both give [0]. *)
Definition num_or0 (x : option Z) : Z :=
  match x with
  | Some n => if n =? 0 then 0 else n
  | None => 0
  end.

(* ================================================================== *)
(** ** [src/utils/gamificationEngine.ts] *)

Module Engine.

(** [interface Achievement] of the types module. *)
Record Achievement := mkAchievement {
  ach_id : string;
  ach_title : string;
  ach_description : string;
  ach_date : string;
  ach_points : Z;
  ach_unlocked : bool;
  ach_tier : string;
  ach_criterion : option string;
  ach_criterionType : option string;
  ach_criterionCount : option Z;
  ach_category : option string;
  ach_rarity : option string;
  ach_status : option string
}.

(** [interface UserGamificationStats]; a counter that the stored document
    lacks reads as [undefined]. *)
Record UserGamificationStats := mkStats {
  quizzesCompleted : option Z;
  modulesCompleted : option Z;
  activitiesCompleted : option Z;
  loginStreak : option Z
}.

(** Value type of [UserAchievementsDoc.unlocked]. *)
Record UnlockInfo := mkUnlockInfo {
  unlock_date : string;
  unlock_seen : bool
}.

(** [{ ...achievement, unlocked: true, date: <today> }] *)
Definition withDate (today : string) (a : Achievement) : Achievement :=
  {| ach_id := ach_id a;
     ach_title := ach_title a;
     ach_description := ach_description a;
     ach_date := today;
     ach_points := ach_points a;
     ach_unlocked := true;
     ach_tier := ach_tier a;
     ach_criterion := ach_criterion a;
     ach_criterionType := ach_criterionType a;
     ach_criterionCount := ach_criterionCount a;
     ach_category := ach_category a;
     ach_rarity := ach_rarity a;
     ach_status := ach_status a |}.

(** The string-keyed members every plain object inherits from
    [Object.prototype]; each of them is a function or an object, hence
    truthy. *)
Definition objectPrototypeMembers : list string :=
  ["constructor"; "__defineGetter__"; "__defineSetter__"; "hasOwnProperty";
   "__lookupGetter__"; "__lookupSetter__"; "isPrototypeOf";
   "propertyIsEnumerable"; "toString"; "valueOf"; "__proto__";
   "toLocaleString"].

Section engine.

(** The parameter [unlockedMap] is a [Record<string, any>], a plain object:
    [unlockedMap] below holds its own properties, with values of any type
    [V], and the engine only tests the looked-up value for truthiness. *)
Context {V : Type} (truthy : V → bool).

(** [unlockedMap[achievement.id]] used as a condition: the own property
    when there is one, otherwise what the object inherits under that name. *)
Definition lookup_truthy (unlockedMap : gmap string V) (k : string) : bool :=
  match unlockedMap !! k with
  | Some v => truthy v
  | None => bool_decide (k ∈ objectPrototypeMembers)
  end.

(** The [switch (achievement.criterionType)] block: the value of
    [isUnlocked] when the switch is left. *)
Definition criterion_switch (currentStats : UserGamificationStats)
    (criterionType : option string) (target : Z) : bool :=
  match criterionType with
  | Some t =>
      if String.eqb t "quizzes" then
        target <=? num_or0 (quizzesCompleted currentStats)
      else if String.eqb t "modules" then
        target <=? num_or0 (modulesCompleted currentStats)
      else if String.eqb t "activities" then
        target <=? num_or0 (activitiesCompleted currentStats)
      else false
  | None => false
  end.

(** The guard [achievement.status === 'Inativa']. *)
Definition is_inactive (achievement : Achievement) : bool :=
  match ach_status achievement with
  | Some s => String.eqb s "Inativa"
  | None => false
  end.

(** One iteration of [for (const achievement of allAchievements)];
    [newUnlocks] is the accumulator the body pushes to, [today] is what
    [new Date().toLocaleDateString('pt-BR')] reads from the clock. *)
Definition engine_iteration (today : string)
    (currentStats : UserGamificationStats) (unlockedMap : gmap string V)
    (newUnlocks : list Achievement) (achievement : Achievement)
  : list Achievement :=
  if lookup_truthy unlockedMap (ach_id achievement) then newUnlocks
  else if is_inactive achievement then newUnlocks
  else
    let target := num_or0 (ach_criterionCount achievement) in
    if target <=? 0 then newUnlocks
    else
      let isUnlocked :=
        criterion_switch currentStats (ach_criterionType achievement) target in
      if isUnlocked then newUnlocks ++ [withDate today achievement]
      else newUnlocks.

(** The iteration reaches [newUnlocks.push] exactly when this holds. *)
Definition unlocks_now (currentStats : UserGamificationStats)
    (unlockedMap : gmap string V) (achievement : Achievement) : bool :=
  negb (lookup_truthy unlockedMap (ach_id achievement))
  && negb (is_inactive achievement)
  && negb (num_or0 (ach_criterionCount achievement) <=? 0)
  && criterion_switch currentStats (ach_criterionType achievement)
       (num_or0 (ach_criterionCount achievement)).

Definition checkNewAchievements (today : string)
    (currentStats : UserGamificationStats)
    (allAchievements : list Achievement) (unlockedMap : gmap string V)
  : list Achievement :=
  fold_left (engine_iteration today currentStats unlockedMap)
    allAchievements [].

End engine.

(** Every stored unlock record is an object, hence truthy. *)
Definition unlock_truthy (_ : UnlockInfo) : bool := true.


(** *** The rule in the words of the claim *)

(** The counter a criterion type names, as the stats object stores it:
    none for a missing counter and for any other type. *)
Definition counter_of (stats : UserGamificationStats)
    (criterionType : option string) : option Z :=
  if decide (criterionType = Some "quizzes") then quizzesCompleted stats
  else if decide (criterionType = Some "modules") then modulesCompleted stats
  else if decide (criterionType = Some "activities") then
    activitiesCompleted stats
  else None.

(** The conditions under which a rule unlocks: the map stores no truthy
    value under its id, it is not inactive, its target count is positive, its
    criterion type is a known one and the counter of that type reaches the
    target. *)
Definition should_unlock {V} (truthy : V → bool)
    (stats : UserGamificationStats) (unlockedMap : gmap string V)
    (a : Achievement) : Prop :=
  truthy <$> unlockedMap !! ach_id a ≠ Some true
  ∧ ach_status a ≠ Some "Inativa"
  ∧ match ach_criterionCount a, counter_of stats (ach_criterionType a) with
    | Some target, Some counter => 0 < target ∧ target ≤ counter
    | _, _ => False
    end.

#[export] Instance should_unlock_dec {V} (truthy : V → bool) stats
    (unlockedMap : gmap string V) a :
  Decision (should_unlock truthy stats unlockedMap a).
Proof.
  unfold should_unlock.
  destruct (ach_criterionCount a), (counter_of stats (ach_criterionType a));
    apply _.
Defined.


(** Sample data: a rule that asks for five quizzes, and a student who has
    completed five. *)
Definition rule_five_quizzes : Achievement :=
  mkAchievement "quiz5" "Quiz Master" "Complete 5 quizzes" "" 50 false
    "bronze" None (Some "quizzes") (Some 5) None None (Some "Ativa").

Definition stats_five_quizzes : UserGamificationStats :=
  mkStats (Some 5) (Some 0) (Some 0) (Some 0).


End Engine.

(* ================================================================== *)
(** ** JavaScript library functions used by the context *)

Module Js.

Section sort.
Context {A : Type} (compareFn : A → A → Z).

(** [Array.prototype.sort(compareFn)] is a stable sort: [a] is placed
    before [b] when [compareFn a b < 0], after it when [compareFn a b > 0],
    and elements that compare equal keep their relative order.  For a
    consistent comparator that result is unique; it is computed here by
    insertion. *)
Fixpoint sort_insert (x : A) (sorted : list A) : list A :=
  match sorted with
  | [] => [x]
  | y :: rest =>
      if compareFn x y <=? 0 then x :: y :: rest
      else y :: sort_insert x rest
  end.

Definition sort (l : list A) : list A := foldr sort_insert [] l.

End sort.

(** The comparator [(a, b) => key(b) - key(a)] and the order it sorts
    into: descending [key]. *)
Definition cmp_desc {A} (key : A → Z) (a b : A) : Z := key b - key a.

Definition desc_by {A} (key : A → Z) (a b : A) : Prop := key b ≤ key a.

(** A [Map] with string keys keeps its entries in insertion order;
    [set] on a present key replaces the value in place. *)
Definition map_has {V} (k : string) (m : list (string * V)) : bool :=
  bool_decide (k ∈ m.*1).

Fixpoint map_set {V} (k : string) (v : V) (m : list (string * V))
  : list (string * V) :=
  match m with
  | [] => [(k, v)]
  | (k', v') :: rest =>
      if String.eqb k k' then (k, v) :: rest else (k', v') :: map_set k v rest
  end.

Definition map_values {V} (m : list (string * V)) : list V := m.*2.

(** [xs.slice(i, j)] for [0 <= i <= j]. *)
Definition slice {A} (i j : nat) (xs : list A) : list A :=
  take (j - i)%nat (drop i xs).

End Js.

(* ================================================================== *)
(** ** [StudentDataContext.tsx]: the notification merge *)

Module Notif.

(** [interface Notification].  [timestamp] is stored as the ISO string
    produced by [toISOString()]; the field holds the instant it denotes,
    in milliseconds, which is what [new Date(n.timestamp).getTime()]
    returns. *)
Record Notification := mkNotification {
  n_id : string;
  n_title : string;
  n_summary : string;
  n_urgency : string;
  n_deepLink : string * option string;
  n_read : bool;
  n_timestamp : Z;
  n_userId : option string;
  n_groupCount : option Z
}.

(** [{ ...n, read: n.read || readReceipts.has(n.id) }] *)
Definition applyReceipt (readReceipts : gset string) (n : Notification)
  : Notification :=
  {| n_id := n_id n;
     n_title := n_title n;
     n_summary := n_summary n;
     n_urgency := n_urgency n;
     n_deepLink := n_deepLink n;
     n_read := n_read n || bool_decide (n_id n ∈ readReceipts);
     n_timestamp := n_timestamp n;
     n_userId := n_userId n;
     n_groupCount := n_groupCount n |}.

(** The comparator of the unified ordering, most recent first:
    [(a, b) => new Date(b.timestamp).getTime() - new Date(a.timestamp).getTime()] *)
Definition byTimestampDesc : Notification → Notification → Z :=
  Js.cmp_desc n_timestamp.

(** The [notifications] memo. *)
Definition notifications (privateNotifications broadcastNotifications
    : list Notification) (readReceipts : gset string) : list Notification :=
  let combined := privateNotifications ++ broadcastNotifications in
  let processed := applyReceipt readReceipts <$> combined in
  Js.sort byTimestampDesc processed.

(** [notifications.filter(n => !n.read).length] *)
Definition unreadNotificationCount (notifications : list Notification) : nat :=
  length (filter (λ n, negb (n_read n) = true) notifications).

(** Sample data: one private and one broadcast notification that carry the
    same document id (the two live in different collections). *)
Definition sample_private : Notification :=
  mkNotification "n1" "Nota lançada" "Sua atividade foi corrigida" "medium"
    ("activities", None) false 2000 (Some "u1") None.

Definition sample_broadcast : Notification :=
  mkNotification "n1" "Aviso da turma" "Prova na sexta" "medium"
    ("dashboard", None) false 1000 (Some "u1") None.

Definition sample_broadcast_read : Notification :=
  mkNotification "b2" "Aviso da turma" "Feira de ciências" "medium"
    ("dashboard", None) false 3000 (Some "u1") None.

End Notif.

(* ================================================================== *)
(** ** The entity shapes of the types module *)

Module Types.

Inductive Role := aluno | professor | admin.

(** [interface User]; [role] may be [null]. *)
Record User := mkUser {
  user_id : string;
  user_name : string;
  user_role : option Role;
  user_series : option string;
  user_avatarUrl : option string
}.

Inductive SubmissionStatus := AguardandoCorrecao | Corrigido.

(** An entry of the legacy [students] array of a class document: either a
    bare id or an object with an [id]. *)
Inductive StudentEntry :=
| StudentId (id : string)
| StudentObj (id name : string) (avatarUrl : option string).

Definition entry_id (s : StudentEntry) : string :=
  match s with
  | StudentId id => id
  | StudentObj id _ _ => id
  end.

(** A document of the [classes] collection ([TeacherClass] on the client).
    [studentIds] and [students] are absent from older documents. *)
Record TeacherClass := mkClass {
  cls_id : string;
  cls_name : string;
  cls_code : string;
  cls_teacherId : string;
  cls_studentIds : option (list string);
  cls_students : option (list StudentEntry);
  cls_studentCount : Z
}.

(** [interface Module], with the fields the context reads or writes. *)
Record Module := mkModule {
  mod_id : string;
  mod_title : string;
  mod_status : string;
  mod_visibility : string;
  mod_classIds : list string;
  mod_progress : option Z
}.

(** [interface Quiz], with the fields the context reads or writes. *)
Record Quiz := mkQuiz {
  quiz_id : string;
  quiz_title : string;
  quiz_attempts : option Z
}.

(** A document of [users/{uid}/quiz_results], keyed by quiz id; any field
    may be missing from a stored document. *)
Record QuizResult := mkQuizResult {
  qr_quizId : string;
  qr_title : option string;
  qr_lastScore : option Z;
  qr_totalQuestions : option Z;
  qr_attempts : option Z;
  qr_bestScore : option Z
}.

Section graded.

(** The JavaScript numbers that carry grades and points; nothing below
    depends on how they are represented. *)
Context {N : Type}.

(** [interface ActivitySubmission]; [grade] is [Some] exactly when
    [typeof submission.grade === 'number']. *)
Record ActivitySubmission := mkSubmission {
  sub_studentId : string;
  sub_studentName : string;
  sub_content : string;
  sub_status : SubmissionStatus;
  sub_grade : option N;
  sub_feedback : option string
}.

(** [interface Activity], with the fields the context reads or writes;
    [createdAt] is the instant of the stored timestamp in milliseconds. *)
Record Activity := mkActivity {
  act_id : string;
  act_title : string;
  act_classId : string;
  act_className : option string;
  act_unidade : option string;
  act_points : N;
  act_isVisible : bool;
  act_createdAt : Z;
  act_submissions : option (list ActivitySubmission)
}.

End graded.

Arguments ActivitySubmission : clear implicits.
Arguments Activity : clear implicits.

End Types.

(* ================================================================== *)
(** ** The remote store client, as the context uses it *)

Module Store.
Import Types.

(** The options argument of a [getDocs] call as the code writes it:
    [getDocs(q, { source: 'cache' })] against [getDocs(q)].  The [getDocs]
    of the modular SDK is declared with the query as its only parameter
    ([getDocsFromCache] is its cache-scoped sibling), so [CacheSource] marks
    the call that carries the option and says nothing about where its answer
    comes from. *)
Inductive Source := CacheSource | DefaultSource.

(** A remote call resolves with a value or rejects with an error. *)
Inductive Outcome (A : Type) :=
| Ok (value : A)
| Throws (message : string).
Arguments Ok {A} value.
Arguments Throws {A} message.

Section store.
Context {N : Type}.

(** [activities where classId in classIn, isVisible == true,
    orderBy createdAt desc, limit n (, startAfter doc)] *)
Record ActivityQuery := mkActivityQuery {
  aq_classIn : list string;
  aq_limit : nat;
  aq_startAfter : option (Activity N)
}.

(** The queries the student context issues. *)
Inductive Query :=
| QClasses (userId : string)
| QQuizzes (series : option string)
| QPublicModules (series : option string)
| QQuizResults (userId : string)
| QClassModules (chunk : list string)
| QActivities (q : ActivityQuery)
| QUserProfile (userId : string)
| QAchievements
| QUserAchievements (userId : string).

(** One [getDocs] or [getDoc] call: the option it carries and its query. *)
Inductive ReadEvent := Read (source : Source) (q : Query).

(** The [userAchievements] document of a user as far as the refresh reads
    it for its control flow: the ids under its [unlocked] map, which a
    document created by the merge write of [handleQuizComplete] (lines
    559-563) does not have. *)
Record UserAchievementsDoc := mkUserAchievementsDoc {
  uad_unlocked : option (list string)
}.

(** What each call resolves with.  The context only ever passes the
    queries above, so the client is one answer function per query; the
    answer to a call that carries the cache option and the answer to the call
    without it are independent inputs of every general statement.
    [sessionAchievements] is what [getSessionCache] returns for the key of
    the global achievements ([utils/cacheUtils] is not among the sources);
    [getAchievements] lists the ids of the active achievement documents and
    [getUserAchievements] is the [getDoc] of the user's achievements
    document, [None] when it does not exist. *)
Record Remote := mkRemote {
  getClasses : Source → string → Outcome (list TeacherClass);
  getQuizzes : Source → option string → Outcome (list Quiz);
  getPublicModules : Source → option string → Outcome (list Module);
  getQuizResults : Source → string → Outcome (list QuizResult);
  getClassModules : Source → list string → Outcome (list Module);
  getActivities : Source → ActivityQuery → Outcome (list (Activity N));
  getModulesProgress : string → Outcome (gmap string Z);
  sessionAchievements : option (list string);
  getAchievements : Outcome (list string);
  getUserAchievements : string → Outcome (option UserAchievementsDoc)
}.

(** A computation that issues reads: its outcome and the reads issued, in
    order. *)
Definition Eff (A : Type) : Type := Outcome A * list ReadEvent.

Definition ret {A} (a : A) : Eff A := (Ok a, []).

Definition throw {A} (message : string) : Eff A := (Throws message, []).

Definition bind {A B} (m : Eff A) (k : A → Eff B) : Eff B :=
  match m with
  | (Ok a, tr) => let '(r, tr') := k a in (r, tr ++ tr')
  | (Throws e, tr) => (Throws e, tr)
  end.

(** [try { m } catch (e) { handler e }] *)
Definition tryCatch {A} (m : Eff A) (handler : string → Eff A) : Eff A :=
  match m with
  | (Ok a, tr) => (Ok a, tr)
  | (Throws e, tr) => let '(r, tr') := handler e in (r, tr ++ tr')
  end.

(** Two promises awaited together: both run; the first rejection wins. *)
Definition both {A B} (x : Eff A) (y : Eff B) : Eff (A * B) :=
  match x, y with
  | (Ok a, tr), (Ok b, tr') => (Ok (a, b), tr ++ tr')
  | (Throws e, tr), (_, tr') => (Throws e, tr ++ tr')
  | (Ok _, tr), (Throws e, tr') => (Throws e, tr ++ tr')
  end.

(** [Promise.all] over a list of promises (reads listed by index). *)
Fixpoint promiseAll {A} (ps : list (Eff A)) : Eff (list A) :=
  match ps with
  | [] => ret []
  | p :: ps' =>
      match both p (promiseAll ps') with
      | (Ok (a, l), tr) => (Ok (a :: l), tr)
      | (Throws e, tr) => (Throws e, tr)
      end
  end.

End store.

Arguments ActivityQuery : clear implicits.
Arguments Query : clear implicits.
Arguments ReadEvent : clear implicits.
Arguments Remote : clear implicits.
Arguments Eff : clear implicits.

Declare Scope eff_scope.
Delimit Scope eff_scope with eff.
Notation "'let*' x ':=' m 'in' k" := (bind m (λ x, k))
  (at level 10, x name, m at level 100, k at level 200) : eff_scope.

End Store.

(* ================================================================== *)
(** ** [StudentDataContext.tsx]: reads, refresh and the paginated feed *)

Module Feed.
Import Types Store.
Local Open Scope eff_scope.

Definition ACTIVITIES_PER_PAGE : nat := 10.

(** [snap.empty] *)
Definition empty {A} (docs : list A) : bool :=
  match docs with [] => true | _ => false end.

Section feed.
Context {N : Type}.
Local Abbreviation Activity := (Types.Activity N).
Local Abbreviation Remote := (Store.Remote N).
Local Abbreviation Eff := (Store.Eff N).

(** Each [getDocs] call is recorded with the option it carries and
    resolves with the client's answer to that call. *)
Definition getDocs {D} (q : Query N) (answer : Source → Outcome (list D))
    (source : Source) : Eff (list D) :=
  (answer source, [Read source q]).

(** *** [fetchStudentActivities] *)

(** [{ activities, lastDoc, hasMore }] *)
Record Page := mkPage {
  page_activities : list Activity;
  page_lastDoc : option Activity;
  page_hasMore : bool
}.

Definition emptyPage : Page := mkPage [] None false.

Definition fetchStudentActivities (R : Remote) (classIds : list string)
    (startAfterDoc : option Activity) : Page * list (ReadEvent N) :=
  if (length classIds =? 0)%nat then (emptyPage, [])
  else
    (* Firestore 'in' query restriction: max 10 items. *)
    let classChunk := Js.slice 0 10 classIds in
    let q := mkActivityQuery classChunk ACTIVITIES_PER_PAGE startAfterDoc in
    let read := getDocs (QActivities q) (λ source, getActivities R source q) in
    let snap : Eff (list Activity) :=
      match startAfterDoc with
      | None =>
          tryCatch
            (let* snap := read CacheSource in
             if empty snap then throw "Cache empty" else ret snap)
            (λ _, read DefaultSource)
      | Some _ => read DefaultSource
      end in
    match snap with
    | (Ok docs, tr) =>
        (mkPage docs (last docs)
           (length docs =? ACTIVITIES_PER_PAGE)%nat, tr)
    | (Throws _, tr) => (emptyPage, tr)
    end.

(** *** The slices of React state the feed and the refresh write *)

Record State := mkState {
  modules : list Module;
  quizzes : list Quiz;
  activities : list Activity;
  studentClasses : list TeacherClass;
  isLoading : bool;
  lastActivityDoc : option Activity;
  hasMoreActivities : bool;
  isLoadingMoreActivities : bool;
  toasts : list (string * string)
}.

Definition initialState : State :=
  mkState [] [] [] [] true None false false [].

Definition setModules v (s : State) : State :=
  mkState v (quizzes s) (activities s) (studentClasses s) (isLoading s)
    (lastActivityDoc s) (hasMoreActivities s) (isLoadingMoreActivities s)
    (toasts s).
Definition setQuizzes v (s : State) : State :=
  mkState (modules s) v (activities s) (studentClasses s) (isLoading s)
    (lastActivityDoc s) (hasMoreActivities s) (isLoadingMoreActivities s)
    (toasts s).
Definition setActivities (f : list Activity → list Activity) (s : State)
  : State :=
  mkState (modules s) (quizzes s) (f (activities s)) (studentClasses s)
    (isLoading s) (lastActivityDoc s) (hasMoreActivities s)
    (isLoadingMoreActivities s) (toasts s).
Definition setStudentClasses v (s : State) : State :=
  mkState (modules s) (quizzes s) (activities s) v (isLoading s)
    (lastActivityDoc s) (hasMoreActivities s) (isLoadingMoreActivities s)
    (toasts s).
Definition setIsLoading v (s : State) : State :=
  mkState (modules s) (quizzes s) (activities s) (studentClasses s) v
    (lastActivityDoc s) (hasMoreActivities s) (isLoadingMoreActivities s)
    (toasts s).
Definition setLastActivityDoc v (s : State) : State :=
  mkState (modules s) (quizzes s) (activities s) (studentClasses s)
    (isLoading s) v (hasMoreActivities s) (isLoadingMoreActivities s)
    (toasts s).
Definition setHasMoreActivities v (s : State) : State :=
  mkState (modules s) (quizzes s) (activities s) (studentClasses s)
    (isLoading s) (lastActivityDoc s) v (isLoadingMoreActivities s)
    (toasts s).
Definition setIsLoadingMoreActivities v (s : State) : State :=
  mkState (modules s) (quizzes s) (activities s) (studentClasses s)
    (isLoading s) (lastActivityDoc s) (hasMoreActivities s) v (toasts s).
Definition addToast (message kind : string) (s : State) : State :=
  mkState (modules s) (quizzes s) (activities s) (studentClasses s)
    (isLoading s) (lastActivityDoc s) (hasMoreActivities s)
    (isLoadingMoreActivities s) (toasts s ++ [(message, kind)]).

(** *** [loadMoreActivities] *)

Definition loadMoreActivities (R : Remote) (s : State)
  : State * list (ReadEvent N) :=
  match lastActivityDoc s with
  | None => (s, [])
  | Some cursor =>
      if isLoadingMoreActivities s
         || (length (studentClasses s) =? 0)%nat
      then (s, [])
      else
        let s1 := setIsLoadingMoreActivities true s in
        let classIds := cls_id <$> studentClasses s in
        let '(result, tr) := fetchStudentActivities R classIds (Some cursor) in
        let s2 :=
          setActivities (λ prev,
            (* Avoid duplicates just in case *)
            let newIds : gset string :=
              list_to_set (act_id <$> page_activities result) in
            prev ++ filter (λ a, negb (bool_decide (act_id a ∈ newIds)) = true)
                      (page_activities result)) s1 in
        let s3 := setLastActivityDoc (page_lastDoc result) s2 in
        let s4 := setHasMoreActivities (page_hasMore result) s3 in
        (setIsLoadingMoreActivities false s4, tr)
  end.

(** *** [refreshData] *)

(** Lines 325-338, the classes read:
    [let classesSnap; let isCache = false;
     if (!forceRefresh) { try { classesSnap = await getDocs(q, cache);
                                if (!classesSnap.empty) isCache = true; }
                          catch (e) { } }
     if (!isCache || classesSnap?.empty) classesSnap = await getDocs(q);] *)
Definition readClasses {D} (forceRefresh : bool)
    (read : Source → Eff (list D)) : Eff (list D) :=
  let '(classesSnap, isCache, tr) :=
    if negb forceRefresh then
      match read CacheSource with
      | (Ok snap, tr) => (Some snap, negb (empty snap), tr)
      | (Throws _, tr) => (None, false, tr)
      end
    else (None, false, []) in
  if negb isCache || from_option empty false classesSnap then
    let '(r, tr') := read DefaultSource in (r, tr ++ tr')
  else
    match classesSnap with
    | Some snap => (Ok snap, tr)
    | None => (Throws "classesSnap is undefined", tr)
    end.

(** Lines 368-377, the loop
    [for (let i = 0; i < myClassIds.length; i += 10)
       chunk = myClassIds.slice(i, i + 10)];
    [fuel] bounds the number of iterations. *)
Fixpoint chunkLoop (fuel i : nat) (myClassIds : list string)
  : list (list string) :=
  match fuel with
  | O => []
  | S fuel' =>
      if (i <? length myClassIds)%nat then
        Js.slice i (i + 10) myClassIds :: chunkLoop fuel' (i + 10) myClassIds
      else []
  end.

Definition classChunks (myClassIds : list string) : list (list string) :=
  if (0 <? length myClassIds)%nat
  then chunkLoop (length myClassIds) 0 myClassIds
  else [].

(** Lines 380-390, the read policy applied to each content query:
    [if (!forceRefresh) { try { const snap = await getDocs(q, cache);
                                if (!snap.empty) return snap; } catch { } }
     return await getDocs(q);] *)
Definition cacheFirst {D} (forceRefresh : bool)
    (read : Source → Eff (list D)) : Eff (list D) :=
  if negb forceRefresh then
    match read CacheSource with
    | (Ok snap, tr) =>
        if negb (empty snap) then (Ok snap, tr)
        else let '(r, tr') := read DefaultSource in (r, tr ++ tr')
    | (Throws _, tr) =>
        let '(r, tr') := read DefaultSource in (r, tr ++ tr')
    end
  else read DefaultSource.

(** The class-module queries pushed by the loop, each under the policy. *)
Definition classModuleReads (R : Remote) (forceRefresh : bool)
    (myClassIds : list string) : list (Eff (list Module)) :=
  (λ chunk,
     cacheFirst forceRefresh
       (getDocs (QClassModules chunk) (λ source, getClassModules R source chunk)))
  <$> classChunks myClassIds.

(** Lines 421-436: quizzes with the attempts recorded for the user. *)
Definition quizAttemptsMap (quizResultsSnap : list QuizResult)
  : gmap string Z :=
  foldl (λ m d, <[qr_quizId d := num_or0 (qr_attempts d)]> m) ∅
    quizResultsSnap.

Definition fetchedQuizzes (quizzesSnap : list Quiz)
    (quizResultsSnap : list QuizResult) : list Quiz :=
  (λ d, mkQuiz (quiz_id d) (quiz_title d)
          (Some (num_or0 (quizAttemptsMap quizResultsSnap !! quiz_id d))))
  <$> quizzesSnap.

(** Lines 438-453: public modules first, then the modules of every class
    chunk that are not yet in the map. *)
Definition rawModules (publicModulesSnap : list Module)
    (classModuleSnaps : list (list Module)) : list Module :=
  let modulesMap :=
    foldl (λ m d, Js.map_set (mod_id d) d m) [] publicModulesSnap in
  let modulesMap :=
    foldl (λ m snap,
             foldl (λ m d,
                      if negb (Js.map_has (mod_id d) m)
                      then Js.map_set (mod_id d) d m else m) m snap)
      modulesMap classModuleSnaps in
  Js.map_values modulesMap.

(** In [modulesMap] every entry is stored under the id of its module. *)
Definition keyed (m : list (string * Module)) : Prop :=
  Forall (λ kv, mod_id kv.2 = kv.1) m.

(** Lines 461-464: [{ ...m, progress: progData ? progData.progress : 0 }] *)
Definition mergedModules (progressMap : gmap string Z)
    (raw : list Module) : list Module :=
  (λ m, mkModule (mod_id m) (mod_title m) (mod_status m) (mod_visibility m)
          (mod_classIds m) (Some (default 0 (progressMap !! mod_id m))))
  <$> raw.

(** Lines 470-477: fill in a missing class name from the class list. *)
Definition enrich (myClasses : list TeacherClass) (act : Activity)
  : Activity :=
  let className := act_className act in
  let className :=
    if match className with
       | None => true
       | Some n => String.eqb n "" || String.eqb n "Turma desconhecida"
       end
    then
      match List.find (λ c, String.eqb (cls_id c) (act_classId act)) myClasses with
      | Some cls => Some (cls_name cls)
      | None => className
      end
    else className in
  mkActivity (act_id act) (act_title act) (act_classId act) className
    (act_unidade act) (act_points act) (act_isVisible act)
    (act_createdAt act) (act_submissions act).

(** [fetchGlobalAchievements] ([utils/achievements.ts] 16-38): the session
    cache when it has the list, else one query, whose failure is caught and
    gives the empty list.  The write to the session cache is not modelled. *)
Definition fetchGlobalAchievements (R : Remote) : Eff (list string) :=
  match sessionAchievements R with
  | Some cached => ret cached
  | None =>
      (Ok match getAchievements R with
          | Ok ids => ids
          | Throws _ => []
          end,
       [Read DefaultSource QAchievements])
  end.

(** [fetchUserAchievementsDoc] ([utils/achievements.ts] 45-77): rejects
    without a user id; otherwise one [getDoc].  A missing document is
    created with an empty [unlocked] map and a failure of the read or of
    that write gives the fallback, whose [unlocked] map is empty too; the
    creating write is not part of the read-only client. *)
Definition fetchUserAchievementsDoc (R : Remote) (userId : string)
  : Eff UserAchievementsDoc :=
  if String.eqb userId "" then throw "UserID is required"
  else
    (Ok match getUserAchievements R userId with
        | Ok (Some data) => data
        | Ok None | Throws _ => mkUserAchievementsDoc (Some [])
        end,
     [Read DefaultSource (QUserAchievements userId)]).

(** Lines 402-410, [globalAchievements.map(ach =>
      userAchievementsDoc.unlocked[ach.id] ...)]: with a document that has
    no [unlocked] map the first achievement raises a TypeError (worded as
    V8 words it).  The merged list and the stats of lines 411-419 go to two
    state slices that are not part of [State]. *)
Definition mergeAchievements (globalAchievements : list string)
    (userAchievementsDoc : UserAchievementsDoc) : Outcome unit :=
  match uad_unlocked userAchievementsDoc, globalAchievements with
  | None, id :: _ =>
      Throws ("Cannot read properties of undefined (reading '" +:+ id +:+ "')")
  | _, _ => Ok ()
  end.

(** The [try] block.  The result carries the state reached when the block
    ends or throws, and the reads issued up to there. *)
Definition refreshBody (R : Remote) (user : User) (forceRefresh : bool)
    (s : State) : Outcome unit * State * list (ReadEvent N) :=
  let uid := user_id user in
  match readClasses forceRefresh
          (getDocs (QClasses uid) (λ source, getClasses R source uid)) with
  | (Throws e, tr) => (Throws e, s, tr)
  | (Ok myClasses, tr1) =>
    let s := setStudentClasses myClasses s in
    let myClassIds := cls_id <$> myClasses in
    let series := user_series user in
    let results :=
      both
        (cacheFirst forceRefresh
           (getDocs (QQuizzes series) (λ source, getQuizzes R source series)))
        (both
           (cacheFirst forceRefresh
              (getDocs (QPublicModules series)
                 (λ source, getPublicModules R source series)))
           (both
              (cacheFirst forceRefresh
                 (getDocs (QQuizResults uid)
                    (λ source, getQuizResults R source uid)))
              (promiseAll (classModuleReads R forceRefresh myClassIds)))) in
    match results with
    | (Throws e, tr2) => (Throws e, s, tr1 ++ tr2)
    | (Ok (quizzesSnap, (publicModulesSnap, (quizResultsSnap, classSnaps))),
       tr2) =>
      match bind (both (fetchGlobalAchievements R)
                    (fetchUserAchievementsDoc R uid))
              (λ '(globalAchievements, userAchievementsDoc),
                 (mergeAchievements globalAchievements userAchievementsDoc,
                  [])) with
      | (Throws e, trA) => (Throws e, s, tr1 ++ tr2 ++ trA)
      | (Ok _, trA) =>
        let s := setQuizzes (fetchedQuizzes quizzesSnap quizResultsSnap) s in
        let raw := rawModules publicModulesSnap classSnaps in
        let tr3 := [Read DefaultSource (QUserProfile uid)] in
        match getModulesProgress R uid with
        | Throws e => (Throws e, s, tr1 ++ tr2 ++ trA ++ tr3)
        | Ok progressMap =>
          let s := setModules (mergedModules progressMap raw) s in
          let '(activityResult, tr4) :=
            fetchStudentActivities R myClassIds None in
          let enrichedActivities :=
            enrich myClasses <$> page_activities activityResult in
          let s := setActivities (λ _, enrichedActivities) s in
          let s := setLastActivityDoc (page_lastDoc activityResult) s in
          let s := setHasMoreActivities (page_hasMore activityResult) s in
          (Ok (), s, tr1 ++ tr2 ++ trA ++ tr3 ++ tr4)
        end
      end
    end
  end.

Definition refreshData (R : Remote) (user : option User)
    (forceRefresh : bool) (s : State) : State * list (ReadEvent N) :=
  match user with
  | Some u =>
      match user_role u with
      | Some aluno =>
          let s := setIsLoading true s in
          match refreshBody R u forceRefresh s with
          | (Ok _, s, tr) => (setIsLoading false s, tr)
          | (Throws message, s, tr) =>
              (setIsLoading false
                 (addToast ("Erro ao carregar dados: " +:+ message) "error" s),
               tr)
          end
      | _ => (setIsLoading false s, [])
      end
  | None => (setIsLoading false s, [])
  end.

(** *** The read policy of the specification (section 4.1), call by call *)

(** The call that carries the cache option is a hit when it returns at
    least one document. *)
Definition cacheHit {D} (cached : Outcome (list D)) : bool :=
  match cached with
  | Ok (_ :: _) => true
  | _ => false
  end.

(** With [forceRefresh] the query is issued once, without the option.
    Otherwise it is first issued with the cache option; a hit is returned as
    it is, and an empty or failed answer is followed by the call without the
    option, whose outcome, error included, is the result. *)
Definition cacheFirstPolicy {D} (forceRefresh : bool) (q : Query N)
    (answer : Source → Outcome (list D)) : Eff (list D) :=
  if forceRefresh then (answer DefaultSource, [Read DefaultSource q])
  else if cacheHit (answer CacheSource) then
    (answer CacheSource, [Read CacheSource q])
  else (answer DefaultSource, [Read CacheSource q; Read DefaultSource q]).

(** The page [fetchStudentActivities] makes of a snapshot: its documents,
    the last of them as cursor, and whether the page is full; a failed read
    gives the empty page. *)
Definition pageOf (snap : Eff (list Activity))
  : Page * list (ReadEvent N) :=
  match snap with
  | (Ok docs, tr) =>
      (mkPage docs (last docs) (length docs =? ACTIVITIES_PER_PAGE)%nat, tr)
  | (Throws _, tr) => (emptyPage, tr)
  end.

End feed.
End Feed.

(* ================================================================== *)
(** ** A reference store *)

Module Firestore.
Import Types Store.

Section firestore.
Context {N : Type}.

(** Modelled from the spec: the remote store client is an external
    collaborator (section 6), so the documents it holds are a parameter of
    every general statement below; this record and [remote] give the
    concrete stores of the examples.  [col_quiz_results] and [col_progress]
    are those of the signed-in user. *)
Record Collections := mkCollections {
  col_classes : list TeacherClass;
  col_quizzes : list Quiz;
  col_modules : list Module;
  col_quiz_results : list QuizResult;
  col_activities : list (Activity N);
  col_progress : gmap string Z
}.

Definition noDocuments : Collections := mkCollections [] [] [] [] [] ∅.

(** Modelled from the spec: [startAfter(cursor)], the documents that
    follow the cursor document in the ordered result. *)
Fixpoint startAfter (cursor : string) (ordered : list (Activity N))
  : list (Activity N) :=
  match ordered with
  | [] => []
  | d :: rest =>
      if String.eqb (act_id d) cursor then rest else startAfter cursor rest
  end.

(** Modelled from the spec: the activity query of section 6, equality
    and membership filters, [orderBy createdAt desc], [startAfter],
    [limit]. *)
Definition runActivityQuery (docs : list (Activity N))
    (q : ActivityQuery N) : list (Activity N) :=
  let matching :=
    filter (λ a, act_classId a ∈ aq_classIn q ∧ act_isVisible a = true) docs in
  let ordered := Js.sort (Js.cmp_desc act_createdAt) matching in
  let rest :=
    match aq_startAfter q with
    | Some cursor => startAfter (act_id cursor) ordered
    | None => ordered
    end in
  take (aq_limit q) rest.

(** Modelled from the spec: a store whose local cache holds [cache] and
    whose server holds [server]; calls that carry the cache option are
    answered from the former, all other calls from the latter; no call
    fails.  It holds no achievement and no achievements document, and the
    session cache is empty. *)
Definition remote (cache server : Collections) : Remote N :=
  let pick (source : Source) :=
    match source with CacheSource => cache | DefaultSource => server end in
  {| getClasses source uid :=
       Ok (filter (λ c, uid ∈ default [] (cls_studentIds c))
             (col_classes (pick source)));
     getQuizzes source _ := Ok (col_quizzes (pick source));
     getPublicModules source _ :=
       Ok (filter (λ m, mod_status m = "Ativo" ∧ mod_visibility m = "public")
             (col_modules (pick source)));
     getQuizResults source _ := Ok (col_quiz_results (pick source));
     getClassModules source chunk :=
       Ok (filter (λ m, mod_status m = "Ativo"
                        ∧ Exists (λ c, c ∈ chunk) (mod_classIds m))
             (col_modules (pick source)));
     getActivities source q :=
       Ok (runActivityQuery (col_activities (pick source)) q);
     getModulesProgress _ := Ok (col_progress server);
     sessionAchievements := None;
     getAchievements := Ok [];
     getUserAchievements _ := Ok None |}.

(** A client as the modular SDK gives it: a call is answered from
    [server] whatever option it carries, unless its query is one the server
    rejects, which is then rejected with and without the option. *)
Definition clientOf (rejects : Query N → option string)
    (server : Collections) : Remote N :=
  let answer {D} (q : Query N) (docs : Outcome (list D))
    : Outcome (list D) :=
    match rejects q with Some e => Throws e | None => docs end in
  let R := remote server server in
  {| getClasses _ uid :=
       answer (QClasses uid) (getClasses R DefaultSource uid);
     getQuizzes _ series :=
       answer (QQuizzes series) (getQuizzes R DefaultSource series);
     getPublicModules _ series :=
       answer (QPublicModules series) (getPublicModules R DefaultSource series);
     getQuizResults _ uid :=
       answer (QQuizResults uid) (getQuizResults R DefaultSource uid);
     getClassModules _ chunk :=
       answer (QClassModules chunk) (getClassModules R DefaultSource chunk);
     getActivities _ q :=
       answer (QActivities q) (getActivities R DefaultSource q);
     getModulesProgress := getModulesProgress R;
     sessionAchievements := None;
     getAchievements := answer QAchievements (getAchievements R);
     getUserAchievements := getUserAchievements R |}.

(** The same client with achievements on the server and a given
    achievements document for every user. *)
Definition withAchievements (ids : list string)
    (stored : option UserAchievementsDoc) (R : Remote N) : Remote N :=
  {| getClasses := getClasses R;
     getQuizzes := getQuizzes R;
     getPublicModules := getPublicModules R;
     getQuizResults := getQuizResults R;
     getClassModules := getClassModules R;
     getActivities := getActivities R;
     getModulesProgress := getModulesProgress R;
     sessionAchievements := sessionAchievements R;
     getAchievements := Ok ids;
     getUserAchievements _ := Ok stored |}.

End firestore.

Arguments Collections : clear implicits.

(** *** Sample data *)

Definition student : User :=
  mkUser "u1" "Ana" (Some aluno) None None.

Definition classNamed (id : string) : TeacherClass :=
  mkClass id ("Turma " +:+ id) ("CODE" +:+ id) "t1" (Some ["u1"]) None 1.

Definition activityAt (id classId : string) (createdAt : Z) : Activity Z :=
  mkActivity id ("Atividade " +:+ id) classId None (Some "1ª Unidade") 10
    true createdAt None.

(** A feed of eleven activities in one class, newest first. *)
Definition elevenActivities : list (Activity Z) :=
  [ activityAt "a01" "c01" 11000; activityAt "a02" "c01" 10000;
    activityAt "a03" "c01" 9000;  activityAt "a04" "c01" 8000;
    activityAt "a05" "c01" 7000;  activityAt "a06" "c01" 6000;
    activityAt "a07" "c01" 5000;  activityAt "a08" "c01" 4000;
    activityAt "a09" "c01" 3000;  activityAt "a10" "c01" 2000;
    activityAt "a11" "c01" 1000 ].

Definition oneClassServer : Collections Z :=
  mkCollections [classNamed "c01"] [] [] [] elevenActivities ∅.



(** A server that holds two activities of class c01. *)
Definition freshServer : Collections Z :=
  mkCollections [classNamed "c01"] [] [] []
    [activityAt "a02" "c01" 2000; activityAt "a01" "c01" 1000] ∅.



End Firestore.

(* ================================================================== *)
(** ** [StudentDataContext.tsx]: [handleQuizComplete] *)

Module QuizFlow.
Import Types Store.

(** [interface UserStats] *)
Record UserStats := mkUserStats {
  xp : Z;
  level : Z;
  xpForNextLevel : Z;
  levelName : string
}.

(** The documents of the signed-in user that the handler reads and
    writes: [users/{uid}/quiz_results/{quizId}] and the [xp] field of
    [userAchievements/{uid}].  The server timestamps written next to them are
    not modelled. *)
Record Db := mkDb {
  quiz_results : gmap string QuizResult;
  achievements_xp : option Z
}.

(** The slices of React state the handler writes. *)
Record State := mkState {
  userStats : UserStats;
  quizzes : list Quiz;
  toasts : list (string * string)
}.

(** Which of the three remote calls reject, and with what error. *)
Record Faults := mkFaults {
  getResultFails : option string;
  setResultFails : option string;
  setStatsFails : option string
}.

Definition noFaults : Faults := mkFaults None None None.

Definition addToast (message kind : string) (s : State) : State :=
  mkState (userStats s) (quizzes s) (toasts s ++ [(message, kind)]).

(** [increment(n)] applied to a field by a merging write: a missing field
    counts as zero. *)
Definition increment (n : Z) (field : option Z) : option Z :=
  Some (default 0 field + n).

(** [setQuizzes(prev => prev.map(q => q.id === quizId
       ? { ...q, attempts: (q.attempts || 0) + 1 } : q))] *)
Definition bumpAttempts (quizId : string) (prev : list Quiz) : list Quiz :=
  (λ q, if String.eqb (quiz_id q) quizId
        then mkQuiz (quiz_id q) (quiz_title q)
               (Some (num_or0 (quiz_attempts q) + 1))
        else q) <$> prev.

(** The [try] block: the xp earned, or the error thrown, with the store and
    the state as they are when the block ends. *)
Definition quizCompleteBody (faults : Faults) (quizId title : string)
    (score total : Z) (db : Db) (s : State) : Outcome Z * Db * State :=
  match getResultFails faults with
  | Some e => (Throws e, db, s)
  | None =>
    let resultSnap := quiz_results db !! quizId in
    let xpEarned := 0 in
    let previousAttempts :=
      match resultSnap with
      | Some data => num_or0 (qr_attempts data)
      | None => 0
      end in
    (* 10 XP per correct answer, on the FIRST attempt only *)
    let xpEarned := if previousAttempts =? 0 then score * 10 else xpEarned in
    let bestScore :=
      match resultSnap with
      | Some data => Z.max (num_or0 (qr_bestScore data)) score
      | None => score
      end in
    match setResultFails faults with
    | Some e => (Throws e, db, s)
    | None =>
      let resultData :=
        mkQuizResult quizId (Some title) (Some score) (Some total)
          (increment 1 (resultSnap ≫= qr_attempts)) (Some bestScore) in
      let db := mkDb (<[quizId := resultData]> (quiz_results db))
                  (achievements_xp db) in
      let afterXp : Outcome unit * Db * State :=
        if 0 <? xpEarned then
          match setStatsFails faults with
          | Some e => (Throws e, db, s)
          | None =>
            let db := mkDb (quiz_results db)
                        (increment xpEarned (achievements_xp db)) in
            let prev := userStats s in
            let s := mkState
                       (mkUserStats (xp prev + xpEarned)
                          ((xp prev + xpEarned) `div` 100 + 1)
                          (xpForNextLevel prev) (levelName prev))
                       (quizzes s) (toasts s) in
            (Ok (),
             db,
             addToast ("Parabéns! Você ganhou " +:+ pretty xpEarned +:+ " XP!")
               "success" s)
          end
        else if 0 <? previousAttempts then
          (Ok (), db,
           addToast "Quiz concluído! (Sem XP extra por repetição)" "info" s)
        else if score =? 0 then
          (Ok (), db,
           addToast "Quiz concluído! (Sem acertos, sem XP)" "info" s)
        else (Ok (), db, s) in
      match afterXp with
      | (Throws e, db, s) => (Throws e, db, s)
      | (Ok _, db, s) =>
        let s := mkState (userStats s) (bumpAttempts quizId (quizzes s))
                   (toasts s) in
        (Ok xpEarned, db, s)
      end
    end
  end.

Definition handleQuizComplete (faults : Faults) (user : option User)
    (quizId title : string) (score total : Z) (db : Db) (s : State)
  : Z * Db * State :=
  match user with
  | None => (0, db, s)
  | Some _ =>
    match quizCompleteBody faults quizId title score total db s with
    | (Ok xpEarned, db, s) => (xpEarned, db, s)
    | (Throws _, db, s) =>
        (0, db, addToast "Erro ao salvar seu resultado." "error" s)
    end
  end.

(** What the store records for a quiz. *)
Definition recordedAttempts (db : Db) (quizId : string) : Z :=
  match quiz_results db !! quizId with
  | Some data => num_or0 (qr_attempts data)
  | None => 0
  end.

Definition storedAttempts (db : Db) (quizId : string) : option Z :=
  quiz_results db !! quizId ≫= qr_attempts.

Definition storedBestScore (db : Db) (quizId : string) : option Z :=
  quiz_results db !! quizId ≫= qr_bestScore.

(** The attempts shown for a quiz in the local quiz list. *)
Definition shownAttempts (s : State) (quizId : string) : list Z :=
  (λ q, num_or0 (quiz_attempts q))
  <$> filter (λ q, quiz_id q = quizId) (quizzes s).

(** Sample data for the scenario of the specification: a quiz of five
    questions that the student has never completed. *)
Definition freshDb : Db := mkDb ∅ None.

Definition freshState : State :=
  mkState (mkUserStats 0 1 100 "Iniciante")
    [mkQuiz "q1" "Revolução Industrial" (Some 0)] [].

End QuizFlow.

(* ================================================================== *)
(** ** [StudentDataContext.tsx]: [handleJoinClass] *)

Module Join.
Import Types Store.

#[export] Instance StudentEntry_eq_dec : EqDecision StudentEntry.
Proof. solve_decision. Defined.

(** The server-side documents the handler touches: the [classes]
    collection by document id and the [totalStudents] counter of each
    [teacher_history] document. *)
Record Db := mkDb {
  classes : gmap string TeacherClass;
  teacher_history : gmap string Z
}.

(** What the handler does besides returning: toasts, and the forced
    refresh after a successful join. *)
Inductive Effect :=
| Toast (message kind : string)
| RefreshData (forceRefresh : bool).

Definition alreadyMemberMessage : string := "Você já está nesta turma.".

(** [arrayUnion(x)] on a field that may be missing. *)
Definition arrayUnion {A} `{EqDecision A} (x : A) (field : option (list A))
  : option (list A) :=
  match field with
  | Some l => if bool_decide (x ∈ l) then Some l else Some (l ++ [x])
  | None => Some [x]
  end.

(** The membership test on the class document of the query snapshot. *)
Definition isMember (user : User) (classData : TeacherClass) : bool :=
  match cls_studentIds classData with
  | Some studentIds => bool_decide (user_id user ∈ studentIds)
  | None =>
      match cls_students classData with
      | Some students =>
          existsb (λ s, String.eqb (entry_id s) (user_id user)) students
      | None => false
      end
  end.

(** The function passed to [runTransaction]: it reads the class, throws,
    or stages both writes. *)
Definition joinTransaction (user : User) (classId teacherId : string)
    (db : Db) : Outcome Db :=
  match classes db !! classId with
  | None => Throws "Turma não encontrada durante transação."
  | Some currentData =>
      let currentStudentIds := default [] (cls_studentIds currentData) in
      if bool_decide (user_id user ∈ currentStudentIds) then
        Throws "User already in class"
      else
        let updated :=
          mkClass (cls_id currentData) (cls_name currentData)
            (cls_code currentData) (cls_teacherId currentData)
            (arrayUnion (user_id user) (cls_studentIds currentData))
            (arrayUnion
               (StudentObj (user_id user) (user_name user)
                  (user_avatarUrl user))
               (cls_students currentData))
            (cls_studentCount currentData + 1) in
        Ok (mkDb (<[classId := updated]> (classes db))
              (<[teacherId :=
                   default 0 (teacher_history db !! teacherId) + 1]>
                 (teacher_history db)))
  end.

(** [runTransaction(db, fn)]: the function runs against the store as it is
    when the transaction commits; what it staged is applied as a whole, and a
    throw (or a transport failure) applies nothing. *)
Definition runTransaction (transportFault : option string)
    (fn : Db → Outcome Db) (db : Db) : Outcome unit * Db :=
  match transportFault with
  | Some e => (Throws e, db)
  | None =>
      match fn db with
      | Ok db' => (Ok (), db')
      | Throws e => (Throws e, db)
      end
  end.

(** [classesByCode code] is the answer to the query
    [classes where code == code]; it may be older than [db], the store at
    the time of the transaction. *)
Definition handleJoinClass (classesByCode : string → Outcome (list TeacherClass))
    (transportFault : option string) (user : option User) (code : string)
    (db : Db) : bool * Db * list Effect :=
  match user with
  | None => (false, db, [])
  | Some u =>
    let onError (message : string) : list Effect :=
      if String.eqb message "User already in class"
      then [Toast alreadyMemberMessage "info"]
      else [Toast "Erro ao entrar na turma." "error"] in
    match classesByCode code with
    | Throws e => (false, db, onError e)
    | Ok [] => (false, db, [Toast "Código da turma inválido." "error"])
    | Ok (classDoc :: _) =>
      let classId := cls_id classDoc in
      let teacherId := cls_teacherId classDoc in
      (* Check if already member locally first *)
      if isMember u classDoc then
        (false, db, [Toast alreadyMemberMessage "info"])
      else
        match runTransaction transportFault
                (joinTransaction u classId teacherId) db with
        | (Ok _, db') =>
            (true, db',
             [Toast "Entrou na turma com sucesso!" "success"; RefreshData true])
        | (Throws e, db') => (false, db', onError e)
        end
    end
  end.



(** The same class as the client saw it before "u1" was added. *)
Definition staleClass : TeacherClass :=
  mkClass "c01" "História 9A" "ABC123" "t1" (Some ["u0"]) None 1.

End Join.

(* ================================================================== *)
(** ** [StudentDataContext.tsx]: the grade report *)

Module Grades.
Import Types.

Section grades.

(** Grades are JavaScript numbers; [add] is their [+] and [zero] is [0]. *)
Context {N : Type} (add : N → N → N) (zero : N).

(** [interface GradeReportActivityDetail] *)
Record GradeReportActivityDetail := mkDetail {
  det_id : string;
  det_title : string;
  det_grade : N;
  det_maxPoints : N
}.

(** [interface GradeReportUnidade] *)
Record GradeReportUnidade := mkUnidade {
  unit_activities : list GradeReportActivityDetail;
  totalPoints : N
}.

(** [interface ClassGradeReport]; [unidades] is keyed by the activity's
    [unidade] string. *)
Record ClassGradeReport := mkClassReport {
  className : string;
  unidades : gmap string GradeReportUnidade
}.

(** [activity.submissions?.find(s => s.studentId === user?.id)] *)
Definition ownSubmission (user : option User) (activity : Activity N)
  : option (ActivitySubmission N) :=
  match user, act_submissions activity with
  | Some u, Some submissions =>
      List.find (λ s, String.eqb (sub_studentId s) (user_id u)) submissions
  | _, _ => None
  end.

(** One iteration of [activities.forEach]. *)
Definition gradeStep (user : option User)
    (report : gmap string ClassGradeReport) (activity : Activity N)
  : gmap string ClassGradeReport :=
  match report !! act_classId activity with
  | None => report
  | Some classReport =>
      match ownSubmission user activity with
      | Some submission =>
          match sub_status submission, sub_grade submission,
                act_unidade activity with
          | Corrigido, Some grade, Some unidadeKey =>
              if String.eqb unidadeKey "" then report
              else
                let unitReport :=
                  default (mkUnidade [] zero)
                    (unidades classReport !! unidadeKey) in
                let unitReport :=
                  mkUnidade
                    (unit_activities unitReport ++
                       [mkDetail (act_id activity) (act_title activity) grade
                          (act_points activity)])
                    (add (totalPoints unitReport) grade) in
                <[act_classId activity :=
                    mkClassReport (className classReport)
                      (<[unidadeKey := unitReport]> (unidades classReport))]>
                  report
          | _, _, _ => report
          end
      | None => report
      end
  end.

(** The [gradeReport] memo. *)
Definition gradeReport (user : option User)
    (studentClasses : list TeacherClass) (activities : list (Activity N))
  : gmap string ClassGradeReport :=
  let report :=
    foldl (λ report cls,
             <[cls_id cls := mkClassReport (cls_name cls) ∅]> report)
      ∅ studentClasses in
  foldl (gradeStep user) report activities.

(** *** The contribution rule in the words of the claim *)




(** *** The claim's own reading of "the current user's submission" *)




End grades.

Arguments GradeReportActivityDetail : clear implicits.
Arguments GradeReportUnidade : clear implicits.
Arguments ClassGradeReport : clear implicits.

(** Sample data: two graded activities of the first unit and one that
    still awaits grading, in a class the student is enrolled in, and a graded
    one in a class the student is not enrolled in. *)
Definition submissionOf (studentId : string) (status : SubmissionStatus)
    (grade : option Z) : ActivitySubmission Z :=
  mkSubmission studentId "Ana" "resposta" status grade None.

Definition gradedActivity (id classId : string)
    (submissions : list (ActivitySubmission Z)) : Activity Z :=
  mkActivity id ("Atividade " +:+ id) classId None (Some "1ª Unidade") 10
    true 0 (Some submissions).

Definition sampleActivities : list (Activity Z) :=
  [ gradedActivity "a1" "c01" [submissionOf "u2" Corrigido (Some 4);
                               submissionOf "u1" Corrigido (Some 8)];
    gradedActivity "a2" "c01" [submissionOf "u1" AguardandoCorrecao None];
    gradedActivity "a3" "c01" [submissionOf "u1" Corrigido (Some 7)];
    gradedActivity "a4" "c99" [submissionOf "u1" Corrigido (Some 10)] ].

End Grades.

(* ================================================================== *)
(** ** Orderings used to compare runs of the rule engine *)

Module EngineOrder.
Import Engine.

(** The three counters the engine reads, compared as the engine reads
    them (a missing counter counts as zero). *)
Definition stats_le (s1 s2 : UserGamificationStats) : Prop :=
  num_or0 (quizzesCompleted s1) ≤ num_or0 (quizzesCompleted s2)
  ∧ num_or0 (modulesCompleted s1) ≤ num_or0 (modulesCompleted s2)
  ∧ num_or0 (activitiesCompleted s1) ≤ num_or0 (activitiesCompleted s2).

Definition stats_six_quizzes : UserGamificationStats :=
  mkStats (Some 6) (Some 1) None (Some 0).

End EngineOrder.

(* ================================================================== *)
(** ** Views on the reads and on the state of the feed *)

Module FeedViews.
Import Types Store Feed Firestore.

Section views.
Context {N : Type}.





End views.

(** The state of [modulesMap] while it is filled: no key twice, every entry
    under its module's id, and every value from where [origin] says. *)
Definition map_inv (origin : Module → Prop) (m : list (string * Module))
  : Prop :=
  keyed m ∧ NoDup m.*1 ∧ Forall (λ kv, origin kv.2) m.

End FeedViews.

(* ================================================================== *)
(** ** [StudentDataContext.tsx]: [fetchClassSpecificHistory] *)

Module History.
Import Types Store Feed.

Section history.
Context {N : Type}.

(** [time a] stands for what
    [a.createdAt ? (new Date(a.createdAt).getTime() || 0) : 0]
    evaluates to on the stored [createdAt] value: zero when the field is
    missing or does not convert to a date, which is the case of the Firestore
    [Timestamp] objects that [serverTimestamp()] leaves in the documents, and
    the instant in milliseconds for a number or a date string. *)
Context (time : Activity N → Z).

(** [{ id: d.id, ...data, className: data.className || className }] *)
Definition withClassName (className : string) (d : Activity N)
  : Activity N :=
  mkActivity (act_id d) (act_title d) (act_classId d)
    (Some match act_className d with
          | Some n => if String.eqb n "" then className else n
          | None => className
          end)
    (act_unidade d) (act_points d) (act_isVisible d) (act_createdAt d)
    (act_submissions d).

(** The updater passed to [setActivities]. *)
Definition mergeHistory (fetchedActivities prev : list (Activity N))
  : list (Activity N) :=
  let existingIds : gset string := list_to_set (act_id <$> prev) in
  let uniqueNew :=
    filter (λ a, negb (bool_decide (act_id a ∈ existingIds)) = true)
      fetchedActivities in
  if (length uniqueNew =? 0)%nat then prev
  else
    (* Merge and sort descending *)
    Js.sort (Js.cmp_desc time) (prev ++ uniqueNew).

(** [answer] is what the client answers to the query
    [activities where classId == classId, isVisible == true,
     orderBy createdAt desc, limit 50], issued with the cache option and
    without it; the second component of the result lists the calls issued,
    in order, by the option they carry. *)
Definition fetchClassSpecificHistory
    (answer : Source → Outcome (list (Activity N))) (user : option User)
    (classId : string) (s : State (N:=N)) : State (N:=N) * list Source :=
  match user with
  | None => (s, [])
  | Some _ =>
    let '(snap, asked) :=
      match answer CacheSource with
      | Ok snap =>
          if empty snap then (answer DefaultSource, [CacheSource; DefaultSource])
          else (Ok snap, [CacheSource])
      | Throws _ => (answer DefaultSource, [CacheSource; DefaultSource])
      end in
    match snap with
    | Ok docs =>
        let cls :=
          List.find (λ c, String.eqb (cls_id c) classId) (studentClasses s) in
        let className :=
          match cls with Some c => cls_name c | None => "Turma" end in
        let fetchedActivities := withClassName className <$> docs in
        (setActivities (mergeHistory fetchedActivities) s, asked)
    | Throws _ =>
        (addToast "Erro ao carregar histórico da turma." "error" s, asked)
    end
  end.

(** The fetched activities that are not yet in the list, by id. *)
Definition unseen (fetchedActivities prev : list (Activity N))
  : list (Activity N) :=
  filter (λ a, act_id a ∉ act_id <$> prev) fetchedActivities.

End history.

(** Sample data: a feed of two activities and a class history that holds
    one of them and an older one. *)
Definition sampleFeed : list (Activity Z) :=
  [Firestore.activityAt "a03" "c01" 3000; Firestore.activityAt "a02" "c02" 2000].

Definition sampleHistory : list (Activity Z) :=
  [Firestore.activityAt "a03" "c01" 3000; Firestore.activityAt "a01" "c01" 1000].

End History.

(* ================================================================== *)
(** ** [StudentDataContext.tsx]: marking notifications as read *)

Module NotifActions.
Import Types Notif.

(** The three inputs of the notification merge, as React state. *)
Record State := mkState {
  privateNotifications : list Notification;
  broadcastNotifications : list Notification;
  readReceipts : gset string
}.

(** The remote writes of the two handlers:
    [updateDoc(doc(db, "notifications", id), { read: true })] and
    [setDoc(doc(db, "users", uid, "read_notifications", id), {})]. *)
Inductive Write :=
| UpdateRead (id : string)
| SetReceipt (id : string).

(** The [notifications] memo over the state. *)
Definition view (s : State) : list Notification :=
  notifications (privateNotifications s) (broadcastNotifications s)
    (readReceipts s).

(** [list.some(x => x.id === id)] *)
Definition someWithId (l : list Notification) (id : string) : bool :=
  existsb (λ x, String.eqb (n_id x) id) l.

(** [fault] is the error of the one remote call, if it rejects; the second
    component lists the writes that were applied. *)
Definition handleMarkNotificationAsRead (fault : option string)
    (user : option User) (id : string) (s : State) : State * list Write :=
  match user with
  | None => (s, [])
  | Some _ =>
    let isPrivate := someWithId (privateNotifications s) id in
    if isPrivate then
      match fault with
      | Some _ => (s, [])
      | None =>
          (* Optimistic update local *)
          (mkState (filter (λ n, n_id n ≠ id) (privateNotifications s))
             (broadcastNotifications s) (readReceipts s),
           [UpdateRead id])
      end
    else
      match fault with
      | Some _ => (s, [])
      | None =>
          (mkState (privateNotifications s) (broadcastNotifications s)
             ({[id]} ∪ readReceipts s),
           [SetReceipt id])
      end
  end.

(** The operations [handleMarkAllNotificationsRead] puts in its batch, one
    [notifications.forEach] iteration after the other. *)
Definition markAllBatch (s : State) : list Write :=
  n ← view s;
  let isPrivate := someWithId (privateNotifications s) (n_id n) in
  let isBroadcast := someWithId (broadcastNotifications s) (n_id n) in
  if isPrivate && negb (n_read n) then [UpdateRead (n_id n)]
  else if isBroadcast && negb (bool_decide (n_id n ∈ readReceipts s))
  then [SetReceipt (n_id n)]
  else [].

(** The batch is committed as a whole or not at all; the handler changes
    no local state. *)
Definition handleMarkAllNotificationsRead (fault : option string)
    (user : option User) (s : State) : list Write :=
  match user with
  | None => []
  | Some _ =>
      match fault with
      | Some _ => []
      | None => markAllBatch s
      end
  end.

(** Sample data: an unread private notice and two broadcasts, one of which
    already has a receipt. *)
Definition sampleState : State :=
  mkState [sample_private]
    [sample_broadcast_read;
     mkNotification "b3" "Aviso da turma" "Reunião de pais" "medium"
       ("dashboard", None) false 500 (Some "u1") None]
    {["b2"]}.

End NotifActions.

(* ================================================================== *)
(** ** [StudentDataContext.tsx]: [handleActivitySubmit] *)

Module Submit.
Import Types Store.

Section submit.
Context {N : Type}.

(** A document of the [activities] collection, with the fields the handler
    reads or writes; the array and the two counters may be missing. *)
Record ActivityDoc := mkActivityDoc {
  doc_title : string;
  doc_classId : string;
  doc_creatorId : option string;
  doc_submissions : option (list (ActivitySubmission N));
  doc_status : string;
  doc_pendingSubmissionCount : option Z;
  doc_submissionCount : option Z
}.

(** The argument of [createNotification]. *)
Record NotificationRequest := mkRequest {
  req_userId : string;
  req_actorId : string;
  req_actorName : string;
  req_type : string;
  req_title : string;
  req_text : string;
  req_classId : string;
  req_activityId : string
}.

(** The store: the activity documents, the documents of their
    [submissions] subcollections by activity id and student id, and the
    notification requests handed to [createNotification]. *)
Record Db := mkDb {
  activityDocs : gmap string ActivityDoc;
  submissionDocs : gmap (string * string) (ActivitySubmission N);
  notified : list NotificationRequest
}.

(** The slices of React state the handler writes. *)
Record State := mkState {
  activities : list (Activity N);
  toasts : list (string * string)
}.

(** Which of the four awaited calls reject, and with what error. *)
Record Faults := mkFaults {
  getDocFails : option string;
  setDocFails : option string;
  updateDocFails : option string;
  createNotificationFails : option string
}.

Definition noFaults : Faults := mkFaults None None None None.

Definition addToast (message kind : string) (s : State) : State :=
  mkState (activities s) (toasts s ++ [(message, kind)]).

(** [submissionData]; its [submissionDate], the ISO string of the clock at
    the call, is not modelled. *)
Definition submissionData (user : User) (content : string)
  : ActivitySubmission N :=
  mkSubmission (user_id user) (user_name user) content AguardandoCorrecao
    None None.

(** [(submissions || []).filter(s => s.studentId !== user.id)] *)
Definition otherSubmissions (user : User)
    (submissions : option (list (ActivitySubmission N)))
  : list (ActivitySubmission N) :=
  filter (λ s, sub_studentId s ≠ user_id user) (default [] submissions).

(** [increment(n)] on a field that may be missing. *)
Definition increment (n : Z) (field : option Z) : option Z :=
  Some (default 0 field + n).

(** The [setActivities(prev => prev.map(...))] update. *)
Definition submitLocally (user : User) (activityId content : string)
    (prev : list (Activity N)) : list (Activity N) :=
  (λ act,
     if negb (String.eqb (act_id act) activityId) then act
     else
       let others := otherSubmissions user (act_submissions act) in
       mkActivity (act_id act) (act_title act) (act_classId act)
         (act_className act) (act_unidade act) (act_points act)
         (act_isVisible act) (act_createdAt act)
         (Some (others ++ [submissionData user content])))
  <$> prev.

Definition quote : string := String (Ascii.ascii_of_nat 34) EmptyString.

Definition submissionNotice (user : User) (activityId : string)
    (data : ActivityDoc) (creatorId : string) : NotificationRequest :=
  mkRequest creatorId (user_id user) (user_name user) "activity_submission"
    "Nova Resposta Recebida"
    ("O aluno " +:+ user_name user
       +:+ " enviou uma resposta para a atividade " +:+ quote
       +:+ doc_title data +:+ quote +:+ ".")
    (doc_classId data) activityId.

(** The [try] block, one awaited call after the other; the store and the
    state are those reached when the block ends or throws. *)
Definition submitBody (faults : Faults) (user : User)
    (activityId content : string) (db : Db) (s : State)
  : Outcome unit * Db * State :=
  match getDocFails faults with
  | Some e => (Throws e, db, s)
  | None =>
    match activityDocs db !! activityId with
    | None => (Ok (), db, s)
    | Some data =>
      let submission := submissionData user content in
      match setDocFails faults with
      | Some e => (Throws e, db, s)
      | None =>
        let db :=
          mkDb (activityDocs db)
            (<[(activityId, user_id user) := submission]> (submissionDocs db))
            (notified db) in
        let others := otherSubmissions user (doc_submissions data) in
        match updateDocFails faults with
        | Some e => (Throws e, db, s)
        | None =>
          let updated :=
            mkActivityDoc (doc_title data) (doc_classId data)
              (doc_creatorId data) (Some (others ++ [submission]))
              "Pendente"
              (increment 1 (doc_pendingSubmissionCount data))
              (increment 1 (doc_submissionCount data)) in
          let db :=
            mkDb (<[activityId := updated]> (activityDocs db))
              (submissionDocs db) (notified db) in
          let s :=
            mkState (submitLocally user activityId content (activities s))
              (toasts s) in
          let notice : Outcome unit * Db :=
            match doc_creatorId data with
            | Some creatorId =>
                if String.eqb creatorId EmptyString then (Ok (), db)
                else
                  match createNotificationFails faults with
                  | Some e => (Throws e, db)
                  | None =>
                      (Ok (),
                       mkDb (activityDocs db) (submissionDocs db)
                         (notified db ++
                            [submissionNotice user activityId data creatorId]))
                  end
            | None => (Ok (), db)
            end in
          match notice with
          | (Throws e, db) => (Throws e, db, s)
          | (Ok _, db) =>
              (Ok (), db, addToast "Atividade enviada com sucesso!" "success" s)
          end
        end
      end
    end
  end.

Definition handleActivitySubmit (faults : Faults) (user : option User)
    (activityId content : string) (db : Db) (s : State) : Db * State :=
  match user with
  | None => (db, s)
  | Some u =>
    match submitBody faults u activityId content db s with
    | (Ok _, db, s) => (db, s)
    | (Throws _, db, s) =>
        (db, addToast "Erro ao enviar atividade." "error" s)
    end
  end.

(** The entries of a submissions array that belong to a student. *)
Definition submissionsOf (studentId : string)
    (submissions : option (list (ActivitySubmission N)))
  : list (ActivitySubmission N) :=
  filter (λ s, sub_studentId s = studentId) (default [] submissions).

End submit.

Arguments ActivityDoc : clear implicits.
Arguments Db : clear implicits.
Arguments State : clear implicits.

(** Sample data: an activity of class c01 on which the student "u1" holds a
    graded submission and "u2" an ungraded one. *)
Definition sampleDoc : ActivityDoc Z :=
  mkActivityDoc "Atividade a1" "c01" (Some "t1")
    (Some [mkSubmission "u1" "Ana" "primeira" Corrigido (Some 8) None;
           mkSubmission "u2" "Bia" "outra" AguardandoCorrecao None None])
    "Pendente" (Some 2) (Some 2).

Definition sampleDb : Db Z := mkDb {["a1" := sampleDoc]} ∅ [].

Definition sampleState : State Z :=
  mkState
    [mkActivity "a1" "Atividade a1" "c01" None (Some "1ª Unidade") 10 true 0
       (doc_submissions sampleDoc)]
    [].

End Submit.

(* ================================================================== *)
(** ** Proof steps for the case analysis of a handler run *)

Module SubmitTactics.

(** Closes a goal that assumes a missing value to be present, and splits
    the assumptions of a case. *)
Ltac absurd_some :=
  repeat match goal with
         | H : is_Some None |- _ => by destruct H as [? [=]]
         | H : _ ∨ _ |- _ => destruct H
         | H : _ ∧ _ |- _ => destruct H
         end.

Ltac solve_mode := intros; absurd_some; simplify_eq; try done.

(** One outcome of a run: four conditional clauses (the last closed by
    [written] in the run it describes), the frame of the feed (closed by
    [ids] when the feed was rewritten) and the notices shown. *)
Ltac leaf shown ids written :=
  (split; [|split; [|split; [|split; [|split]]]]);
  [solve_mode | solve_mode | solve_mode
  | first [solve [solve_mode] | written]
  | first [done | ids]
  | exists shown; split; [by rewrite ?app_nil_r | simpl; lia]].

End SubmitTactics.

(* ================================================================== *)
(** * Properties *)

(** ** Achievement rule engine *)

Section engine_facts.
Import Engine.
Context {V : Type} (truthy : V → bool).

Lemma engine_iteration_push today stats (m : gmap string V) acc a :
  engine_iteration truthy today stats m acc a =
  if unlocks_now truthy stats m a then acc ++ [withDate today a] else acc.
Proof.
  unfold engine_iteration, unlocks_now.
  destruct (lookup_truthy truthy m (ach_id a)); [done|].
  destruct (is_inactive a); [done|].
  destruct (num_or0 (ach_criterionCount a) <=? 0); [done|].
  by destruct (criterion_switch _ _ _).
Qed.

Lemma engine_fold today stats (m : gmap string V) rules acc :
  fold_left (engine_iteration truthy today stats m) rules acc =
  acc ++ (withDate today <$> filter (λ a, unlocks_now truthy stats m a = true) rules).
Proof.
  revert acc. induction rules as [|a rules IH]; intros acc; simpl.
  - by rewrite app_nil_r.
  - rewrite IH, engine_iteration_push, filter_cons.
    destruct (unlocks_now truthy stats m a) eqn:Hu.
    + rewrite decide_True by done. by rewrite fmap_cons, <- app_assoc.
    + rewrite decide_False by done. done.
Qed.

Lemma checkNewAchievements_filter today stats rules (m : gmap string V) :
  checkNewAchievements truthy today stats rules m =
  withDate today <$> filter (λ a, unlocks_now truthy stats m a = true) rules.
Proof. unfold checkNewAchievements. by rewrite engine_fold. Qed.

End engine_facts.

Section engine_claims.
Import Engine.

Lemma num_or0_positive x target :
  0 < target → (num_or0 x = target ↔ x = Some target).
Proof.
  intros Hpos. destruct x as [n|]; simpl.
  - destruct (Z.eqb_spec n 0); split; intros; simplify_eq; lia || done.
  - split; intros; simplify_eq; lia.
Qed.










(** The monotonicity scenario: the rule is returned while its id is not in
    the unlocked map, and no longer once the caller has merged it in. *)
Example checkNewAchievements_once :
  (ach_id <$> checkNewAchievements unlock_truthy "01/03/2025"
                stats_five_quizzes [rule_five_quizzes] ∅) = ["quiz5"]
  ∧ checkNewAchievements unlock_truthy "01/03/2025" stats_five_quizzes
      [rule_five_quizzes]
      {["quiz5" := mkUnlockInfo "2025-03-01T10:00:00.000Z" false]} = [].
Proof. vm_compute. split; reflexivity. Qed.



End engine_claims.

(** ** Notification merge *)

Section sort_facts.
Import Js.
Context {A : Type} (key : A → Z).
Local Abbreviation desc_by := (Js.desc_by key).
Local Abbreviation cmp_desc := (Js.cmp_desc key).

Lemma sort_insert_perm x (l : list A) :
  Js.sort_insert cmp_desc x l ≡ₚ x :: l.
Proof.
  induction l as [|y l IH]; simpl; [done|].
  destruct (cmp_desc x y <=? 0); [done|].
  rewrite IH. apply Permutation_swap.
Qed.

Lemma sort_perm (l : list A) : Js.sort cmp_desc l ≡ₚ l.
Proof.
  induction l as [|x l IH]; simpl; [done|].
  by rewrite sort_insert_perm, IH.
Qed.

Lemma sort_insert_sorted x (l : list A) :
  StronglySorted desc_by l → StronglySorted desc_by (Js.sort_insert cmp_desc x l).
Proof.
  induction 1 as [|y l Hl IH Hy]; simpl.
  - repeat constructor.
  - destruct (Z.leb_spec (cmp_desc x y) 0) as [Hle|Hgt].
    + constructor; [by constructor|].
      unfold cmp_desc in Hle. constructor; [unfold desc_by; lia|].
      eapply Forall_impl; [exact Hy|]. unfold desc_by. intros z ?. lia.
    + constructor; [done|].
      rewrite sort_insert_perm. constructor; [|done].
      unfold cmp_desc in Hgt. unfold desc_by. lia.
Qed.

Lemma sort_sorted (l : list A) : StronglySorted desc_by (Js.sort cmp_desc l).
Proof.
  induction l as [|x l IH]; simpl; [constructor|].
  by apply sort_insert_sorted.
Qed.

(** Stability: elements with one and the same key keep their order. *)
Lemma sort_insert_stable k x (l : list A) :
  StronglySorted desc_by l →
  filter (λ a, key a = k) (Js.sort_insert cmp_desc x l) =
  filter (λ a, key a = k) (x :: l).
Proof.
  induction 1 as [|y l Hl IH Hy]; simpl; [done|].
  destruct (Z.leb_spec (cmp_desc x y) 0) as [Hle|Hgt]; [done|].
  rewrite filter_cons, IH, !filter_cons.
  unfold cmp_desc in Hgt.
  repeat case_decide; try done; lia.
Qed.

Lemma sort_stable k (l : list A) :
  filter (λ a, key a = k) (Js.sort cmp_desc l) = filter (λ a, key a = k) l.
Proof.
  induction l as [|x l IH]; simpl; [done|].
  rewrite sort_insert_stable by apply sort_sorted.
  by rewrite !filter_cons, IH.
Qed.

End sort_facts.

Section notification_claims.
Import Notif.

Lemma unread_count_perm (l k : list Notification) :
  l ≡ₚ k → unreadNotificationCount l = unreadNotificationCount k.
Proof. intros H. unfold unreadNotificationCount. by rewrite H. Qed.



(** A private notice and two broadcasts, one of them with a receipt: the
    view is ordered newest first and two items are unread. *)
Example notifications_sample :
  let view :=
    notifications [sample_private]
      [sample_broadcast; sample_broadcast_read] {["b2"]} in
  (λ n, (n_id n, n_read n)) <$> view =
    [("b2", true); ("n1", false); ("n1", false)]
  ∧ unreadNotificationCount view = 2%nat.
Proof. vm_compute. split; reflexivity. Qed.

(** C7, as stated, fails: nothing removes duplicates, so an id present in
    both sources appears twice in the merged view. *)
Lemma notifications_not_deduplicated :
  ¬ NoDup (n_id <$> notifications [sample_private] [sample_broadcast] ∅).
Proof.
  vm_compute. intros H. apply NoDup_cons in H as [H _].
  apply H. constructor.
Qed.

(** C7, amended. The merged view always has exactly |A|+|B| items (no
    item is dropped or merged), and it is free of repeated ids exactly when
    the ids within each source are distinct and the two sources share none. *)
Theorem notifications_union privateNotifications broadcastNotifications
    (readReceipts : gset string) :
  let view :=
    notifications privateNotifications broadcastNotifications readReceipts in
  length view =
    (length privateNotifications + length broadcastNotifications)%nat
  ∧ (NoDup (n_id <$> view) ↔
       NoDup (n_id <$> privateNotifications)
       ∧ (∀ i, i ∈ n_id <$> privateNotifications →
               i ∉ n_id <$> broadcastNotifications)
       ∧ NoDup (n_id <$> broadcastNotifications)).
Proof.
  intros view.
  assert (view ≡ₚ applyReceipt readReceipts <$>
            (privateNotifications ++ broadcastNotifications)) as Hp
    by apply sort_perm.
  split.
  - rewrite Hp, length_fmap. apply length_app.
  - rewrite Hp, <- list_fmap_compose, <- NoDup_app, <- fmap_app. done.
Qed.

End notification_claims.


(** ** The paginated activity feed *)

Section feed_facts.
Import Types Store Feed.
Context {N : Type}.
Implicit Types (R : Remote N) (s : State (N:=N)).

(** The filter of [loadMoreActivities] tests the fetched page against its
    own ids, so nothing passes it. *)
Lemma filter_against_own_ids (fetched : list (Activity N)) :
  filter (λ a, negb (bool_decide
                 (act_id a ∈ (list_to_set (act_id <$> fetched) : gset string)))
               = true) fetched = [].
Proof.
  apply elem_of_nil_inv. intros a [Ha Hin]%list_elem_of_filter.
  apply negb_true_iff, bool_decide_eq_false in Ha. apply Ha.
  apply elem_of_list_to_set, list_elem_of_fmap. eauto.
Qed.

Lemma loadMoreActivities_never_appends R s :
  activities (loadMoreActivities R s).1 = activities s.
Proof.
  unfold loadMoreActivities.
  destruct (lastActivityDoc s) as [cursor|]; [|done].
  destruct (isLoadingMoreActivities s || _); [done|].
  destruct (fetchStudentActivities _ _ _) as [result tr]. simpl.
  by rewrite filter_against_own_ids, app_nil_r.
Qed.

(** A call that passes the guard does replace the cursor and the
    has-more flag by those of the fetched page. *)
Lemma loadMoreActivities_updates_cursor R s cursor :
  lastActivityDoc s = Some cursor →
  isLoadingMoreActivities s = false →
  studentClasses s ≠ [] →
  let '(s', tr) := loadMoreActivities R s in
  let '(page, tr') :=
    fetchStudentActivities R (cls_id <$> studentClasses s) (Some cursor) in
  lastActivityDoc s' = page_lastDoc page
  ∧ hasMoreActivities s' = page_hasMore page
  ∧ isLoadingMoreActivities s' = false
  ∧ tr = tr'.
Proof.
  intros Hcur Hload Hcls. unfold loadMoreActivities.
  rewrite Hcur, Hload.
  destruct (studentClasses s) as [|c cs] eqn:Hc; [done|]. simpl.
  by destruct (fetchStudentActivities _ _ _) as [page tr].
Qed.

(** *** The read policy at each read site *)

(** The policy, clause by clause: a forced read is one network read;
    otherwise the cache is asked first, the network is asked exactly when the
    cache returned no document or threw, a cache error never surfaces, and
    a network error does. *)
Lemma cacheFirstPolicy_clauses {D} (q : Query N)
    (answer : Source → Outcome (list D)) :
  cacheFirstPolicy true q answer =
    (answer DefaultSource, [Read DefaultSource q])
  ∧ (∃ rest, (cacheFirstPolicy false q answer).2 = Read CacheSource q :: rest)
  ∧ (Read DefaultSource q ∈ (cacheFirstPolicy false q answer).2 ↔
       answer CacheSource = Ok [] ∨ ∃ e, answer CacheSource = Throws e)
  ∧ (∀ e, answer CacheSource = Throws e →
       (cacheFirstPolicy false q answer).1 = answer DefaultSource)
  ∧ (∀ e, Read DefaultSource q ∈ (cacheFirstPolicy false q answer).2 →
       answer DefaultSource = Throws e →
       (cacheFirstPolicy false q answer).1 = Throws e).
Proof.
  unfold cacheFirstPolicy, cacheHit. split; [done|].
  destruct (answer CacheSource) as [[|d docs]|e0]; cbn [fst snd].
  - split; [by eexists|]. split; [|by split].
    split; [by left|]. intros _. right. left.
  - split; [by eexists|]. split; [|split].
    + split.
      * intros [=]%list_elem_of_singleton.
      * intros [[=]|[e [=]]].
    + by intros e [=].
    + by intros e [=]%list_elem_of_singleton.
  - split; [by eexists|]. split; [|by split].
    split; [right; by eexists|]. intros _. right. left.
Qed.



(** The activities read: an empty class list issues nothing; otherwise one
    query over the first ten class ids, cache-first exactly when there is no
    cursor, whatever the caller's refresh flag. *)
Lemma fetchStudentActivities_policy R classIds startAfterDoc :
  classIds ≠ [] →
  fetchStudentActivities R classIds startAfterDoc =
  let q := mkActivityQuery (take 10 classIds) 10 startAfterDoc in
  pageOf (cacheFirstPolicy (bool_decide (is_Some startAfterDoc))
            (QActivities q) (λ source, getActivities R source q)).
Proof.
  intros Hne. unfold fetchStudentActivities.
  destruct classIds as [|c classIds]; [done|]. clear Hne.
  cbn [length Nat.eqb]. unfold Js.slice.
  change (10 - 0)%nat with 10%nat. rewrite drop_0.
  unfold cacheFirstPolicy, getDocs, cacheHit, ACTIVITIES_PER_PAGE.
  destruct startAfterDoc as [cursor|]; simpl; [done|].
  destruct (getActivities R CacheSource _) as [[|d docs]|e]; simpl;
    try done; by destruct (getActivities R DefaultSource _).
Qed.

End feed_facts.

(** ** Chunked class-module reads and the module union *)

Section chunk_facts.
Import Types Store Feed.






Context {N : Type}.




Lemma promiseAll_ok {A} (ps : list (Eff N A)) :
  Forall (λ p, ∃ a, p.1 = Ok a) ps → ∃ l, (promiseAll ps).1 = Ok l.
Proof.
  induction 1 as [|[o tr] ps [a Ha] _ [l IH]]; [by eexists|].
  simpl in Ha. subst o. cbn [promiseAll].
  destruct (promiseAll ps) as [? tr']. simpl in IH. subst. by eexists.
Qed.


(** *** The insertion-ordered map *)

Lemma map_set_keys {V} k (v : V) m k' :
  k' ∈ (Js.map_set k v m).*1 ↔ k' = k ∨ k' ∈ m.*1.
Proof.
  induction m as [|[k0 v0] m IH]; simpl.
  - rewrite list_elem_of_singleton, elem_of_nil. tauto.
  - destruct (String.eqb_spec k k0) as [->|Hne]; simpl.
    + rewrite !elem_of_cons. tauto.
    + rewrite !elem_of_cons, IH. tauto.
Qed.

Lemma keyed_set d m : keyed m → keyed (Js.map_set (mod_id d) d m).
Proof.
  unfold keyed. induction 1 as [|[k0 v0] m Hk Hm IH]; simpl.
  - by repeat constructor.
  - destruct (String.eqb_spec (mod_id d) k0); by constructor.
Qed.

Lemma keyed_values m : keyed m → mod_id <$> Js.map_values m = m.*1.
Proof.
  unfold keyed, Js.map_values. induction 1 as [|[k v] m Hk Hm IH]; [done|].
  rewrite !fmap_cons. cbn [fst snd] in *. by rewrite Hk, IH.
Qed.

Lemma fold_set_spec (docs : list Module) m :
  keyed m →
  let m' := foldl (λ m d, Js.map_set (mod_id d) d m) m docs in
  keyed m' ∧ ∀ id, id ∈ m'.*1 ↔ id ∈ m.*1 ∨ id ∈ mod_id <$> docs.
Proof.
  revert m. induction docs as [|d docs IH]; intros m Hm; simpl.
  - split; [done|]. intros id. rewrite elem_of_nil. tauto.
  - destruct (IH (Js.map_set (mod_id d) d m)) as [Hk Hids];
      [by apply keyed_set|].
    split; [done|]. intros id.
    rewrite Hids, map_set_keys, elem_of_cons. tauto.
Qed.




End chunk_facts.

(** ** The claims on the feed and on the bulk reads *)

Section feed_claims.
Import Types Store Feed Firestore FeedViews.

(** C1. The claim is right and [loadMoreActivities] does not meet it: on a
    feed of eleven activities the first page holds ten, the next page is
    fetched (its one document becomes the cursor and [hasMore] turns false)
    but is not appended, so the eleventh id never reaches the list. *)
Theorem loadMoreActivities_drops_fetched_page :
  let R := remote noDocuments oneClassServer in
  let '(s1, _) := refreshData R (Some student) false initialState in
  let '(page2, _) :=
    fetchStudentActivities R (cls_id <$> studentClasses s1)
      (lastActivityDoc s1) in
  let '(s2, _) := loadMoreActivities R s1 in
  let '(s3, _) := loadMoreActivities R s2 in
  act_id <$> activities s1 =
    ["a01"; "a02"; "a03"; "a04"; "a05"; "a06"; "a07"; "a08"; "a09"; "a10"]
  ∧ hasMoreActivities s1 = true
  ∧ act_id <$> page_activities page2 = ["a11"]
  ∧ activities s2 = activities s1
  ∧ act_id <$> lastActivityDoc s2 = Some "a11"
  ∧ hasMoreActivities s2 = false
  ∧ activities s3 = activities s1
  ∧ lastActivityDoc s3 = None.
Proof. vm_compute. repeat split; reflexivity. Qed.




(** A network error of the activities read surfaces at the boundary of
    [fetchStudentActivities], which answers with the empty page. *)
Lemma fetchStudentActivities_network_error {N} (R : Remote N) classIds
    startAfterDoc e :
  classIds ≠ [] →
  (let q := mkActivityQuery (take 10 classIds) 10 startAfterDoc in
   (cacheFirstPolicy (bool_decide (is_Some startAfterDoc)) (QActivities q)
      (λ source, getActivities R source q)).1) = Throws e →
  (fetchStudentActivities R classIds startAfterDoc).1 = emptyPage.
Proof.
  intros Hne Herr. rewrite fetchStudentActivities_policy by done.
  cbn zeta in *. destruct (cacheFirstPolicy _ _ _) as [o tr].
  simpl in Herr. by subst o.
Qed.

(** *** Where the error of a rejected call ends up *)






(** A refresh that meets an achievements document without its [unlocked]
    map while an achievement exists stops at the merge: the classes are set,
    the notice carries the TypeError, and quizzes, modules and activities
    stay as they were. *)
Lemma refreshData_achievements_without_unlocked :
  let R := withAchievements ["quiz5"] (Some (mkUserAchievementsDoc None))
             (clientOf (λ _, None) freshServer) in
  let '(s, tr) := refreshData R (Some student) true initialState in
  tr = [Read DefaultSource (QClasses "u1");
        Read DefaultSource (QQuizzes None);
        Read DefaultSource (QPublicModules None);
        Read DefaultSource (QQuizResults "u1");
        Read DefaultSource (QClassModules ["c01"]);
        Read DefaultSource QAchievements;
        Read DefaultSource (QUserAchievements "u1")]
  ∧ toasts s =
      [("Erro ao carregar dados: Cannot read properties of undefined (reading 'quiz5')",
        "error")]
  ∧ cls_id <$> studentClasses s = ["c01"]
  ∧ activities s = []
  ∧ isLoading s = false.
Proof. vm_compute. repeat split; reflexivity. Qed.




End feed_claims.


(** ** Quiz completion *)

Section quiz_claims.
Import Types Store QuizFlow.

Lemma num_or0_Some n : num_or0 (Some n) = n.
Proof. simpl. destruct (Z.eqb_spec n 0); congruence. Qed.

Lemma recordedAttempts_stored db quizId :
  recordedAttempts db quizId = num_or0 (storedAttempts db quizId).
Proof.
  unfold recordedAttempts, storedAttempts.
  by destruct (quiz_results db !! quizId).
Qed.

Lemma bumpAttempts_shown quizId qs :
  (λ q, num_or0 (quiz_attempts q))
    <$> filter (λ q, quiz_id q = quizId) (bumpAttempts quizId qs) =
  (λ q, num_or0 (quiz_attempts q) + 1)
    <$> filter (λ q, quiz_id q = quizId) qs.
Proof.
  unfold bumpAttempts. induction qs as [|q qs IH]; [done|].
  rewrite fmap_cons, !filter_cons.
  destruct (String.eqb_spec (quiz_id q) quizId) as [Heq|Hne]; simpl.
  - rewrite !decide_True by done. rewrite !fmap_cons, IH.
    f_equal. apply (num_or0_Some (num_or0 (quiz_attempts q) + 1)).
  - rewrite !decide_False by done. apply IH.
Qed.

(** The store and the return value after a completion in which no remote
    call fails. *)
Lemma handleQuizComplete_result user quizId title score total db s :
  let '(xpReturned, db', s') :=
    handleQuizComplete noFaults (Some user) quizId title score total db s in
  xpReturned = (if recordedAttempts db quizId =? 0 then score * 10 else 0)
  ∧ storedAttempts db' quizId = Some (default 0 (storedAttempts db quizId) + 1)
  ∧ storedBestScore db' quizId =
      Some (match quiz_results db !! quizId with
            | Some data => Z.max (num_or0 (qr_bestScore data)) score
            | None => score
            end)
  ∧ shownAttempts s' quizId = (λ n, n + 1) <$> shownAttempts s quizId.
Proof.
  unfold handleQuizComplete, quizCompleteBody, noFaults, recordedAttempts,
    storedAttempts, storedBestScore, shownAttempts. cbn [getResultFails
    setResultFails setStatsFails].
  set (previous := match quiz_results db !! quizId with
                   | Some data => num_or0 (qr_attempts data)
                   | None => 0 end).
  set (xpEarned := if previous =? 0 then score * 10 else 0).
  destruct (0 <? xpEarned); [|destruct (0 <? previous); [|destruct (score =? 0)]];
    cbn [quiz_results quizzes userStats toasts addToast];
    rewrite lookup_insert_eq; cbn [mbind option_bind qr_attempts qr_bestScore];
    rewrite bumpAttempts_shown, <- list_fmap_compose; done.
Qed.

(** C4. When no attempt is recorded for the quiz, completing it with score
    S returns S*10 xp and leaves 1 recorded attempt; when attempts are
    recorded, completing it returns 0 xp, records one attempt more and stores
    as best score the maximum of the stored best score and the new score; the
    attempts shown in the local quiz list grow by one either way.  Hence a
    second completion, whatever its score, returns 0. *)
Theorem handleQuizComplete_first_attempt_rule user quizId title score total
    db s :
  let '(xpReturned, db', s') :=
    handleQuizComplete noFaults (Some user) quizId title score total db s in
  (recordedAttempts db quizId = 0 →
     xpReturned = score * 10 ∧ storedAttempts db' quizId = Some 1)
  ∧ (recordedAttempts db quizId ≠ 0 →
     xpReturned = 0
     ∧ storedAttempts db' quizId = Some (recordedAttempts db quizId + 1)
     ∧ ∀ best, storedBestScore db quizId = Some best →
               storedBestScore db' quizId = Some (Z.max best score))
  ∧ shownAttempts s' quizId = (λ n, n + 1) <$> shownAttempts s quizId
  ∧ (0 ≤ recordedAttempts db quizId →
     ∀ title2 score2 total2,
       (handleQuizComplete noFaults (Some user) quizId title2 score2 total2
          db' s').1.1 = 0).
Proof.
  pose proof (handleQuizComplete_result user quizId title score total db s)
    as H.
  destruct (handleQuizComplete _ _ _ _ _ _ _ _) as [[xpReturned db'] s'].
  destruct H as (Hxp & Hatt & Hbest & Hshown).
  rewrite recordedAttempts_stored in *.
  split; [|split; [|split; [done|]]].
  - intros H0. rewrite H0 in Hxp. split; [done|]. rewrite Hatt.
    destruct (storedAttempts db quizId) as [n|]; [|done].
    rewrite num_or0_Some in H0. by subst n.
  - intros Hn. apply Z.eqb_neq in Hn. rewrite Hn in Hxp. split; [done|].
    apply Z.eqb_neq in Hn.
    split.
    + rewrite Hatt. destruct (storedAttempts db quizId) as [n|]; [|done].
      by rewrite num_or0_Some.
    + intros best Hb. rewrite Hbest. unfold storedBestScore in Hb.
      destruct (quiz_results db !! quizId) as [data|]; [|done].
      simpl in Hb. by rewrite Hb, num_or0_Some.
  - intros Hpos title2 score2 total2.
    pose proof (handleQuizComplete_result user quizId title2 score2 total2
                  db' s') as H2.
    destruct (handleQuizComplete _ _ _ _ _ _ db' s') as [[xp2 db2] s2].
    destruct H2 as [-> _]. simpl.
    rewrite recordedAttempts_stored, Hatt, num_or0_Some.
    destruct (Z.eqb_spec (default 0 (storedAttempts db quizId) + 1) 0)
      as [Hz|]; [|done].
    destruct (storedAttempts db quizId) as [n|]; [|done].
    rewrite num_or0_Some in Hpos. simpl in Hz. lia.
Qed.

(** The scenario of the specification: a first completion with 3 correct
    answers out of 5, then a second one with 5. *)
Example quiz_scenario :
  let '(xp1, db1, s1) :=
    handleQuizComplete noFaults (Some Firestore.student) "q1"
      "Revolução Industrial" 3 5 freshDb freshState in
  let '(xp2, db2, s2) :=
    handleQuizComplete noFaults (Some Firestore.student) "q1"
      "Revolução Industrial" 5 5 db1 s1 in
  xp1 = 30 ∧ storedAttempts db1 "q1" = Some 1
  ∧ xp2 = 0 ∧ storedAttempts db2 "q1" = Some 2
  ∧ storedBestScore db2 "q1" = Some 5
  ∧ shownAttempts s2 "q1" = [2].
Proof. vm_compute. repeat split; reflexivity. Qed.

End quiz_claims.

(** ** Joining a class *)

Section join_claims.
Import Types Store Join.

(** The transaction either stages nothing, or the user was not in the
    membership set it read and both the membership entry and the counter
    increment are applied to that same class document. *)
Lemma joinTransaction_check_and_set user classId teacherId db db' :
  joinTransaction user classId teacherId db = Ok db' →
  ∃ current updated,
    classes db !! classId = Some current
    ∧ (user_id user ∉ default [] (cls_studentIds current))
    ∧ classes db' !! classId = Some updated
    ∧ user_id user ∈ default [] (cls_studentIds updated)
    ∧ cls_studentCount updated = cls_studentCount current + 1
    ∧ ∀ other, other ≠ classId → classes db' !! other = classes db !! other.
Proof.
  unfold joinTransaction. destruct (classes db !! classId) as [current|] eqn:Hc;
    [|done].
  case_bool_decide as Hin; [done|]. intros [= <-].
  eexists current, _. cbn [classes]. rewrite lookup_insert_eq.
  split; [done|]. split; [done|]. split; [done|]. cbn.
  split; [|split; [done|]].
  - unfold arrayUnion. destruct (cls_studentIds current) as [l|]; simpl in *.
    + rewrite bool_decide_eq_false_2 by done. simpl. set_solver.
    + set_solver.
  - intros other Hne. by rewrite lookup_insert_ne.
Qed.



End join_claims.

(** ** The grade report *)

Section grade_facts.
Import Types Grades.
Context {N : Type} (add : N → N → N) (zero : N).

Local Abbreviation Detail := (GradeReportActivityDetail N).
Local Abbreviation Unidade := (GradeReportUnidade N).
Local Abbreviation ClassReport := (ClassGradeReport N).













End grade_facts.

Section grade_example.
Import Types Grades.

(** For the sample feed the first unit of class c01 lists the grades 8 and
    7 of the student and totals 15; the ungraded activity, the other
    student's grade and the class the student is not enrolled in contribute
    nothing. *)
Example gradeReport_sample :
  let report :=
    gradeReport Z.add 0 (Some Firestore.student) [Firestore.classNamed "c01"]
      sampleActivities in
  report !! "c99" = None
  ∧ ((λ cr, (λ ur, (det_id <$> unit_activities ur, totalPoints ur))
              <$> unidades cr !! "1ª Unidade") <$> report !! "c01")
    = Some (Some (["a1"; "a3"], 15)).
Proof. vm_compute. split; reflexivity. Qed.


End grade_example.

(* ================================================================== *)
(** * Further properties of the embedded code *)

(** ** The rule engine across runs *)

Section engine_runs.
Import Engine EngineOrder.
Context {V : Type} (truthy : V → bool).

Lemma filter_sublist_impl {A} (P Q : A → Prop) `{∀ x, Decision (P x)}
    `{∀ x, Decision (Q x)} (l : list A) :
  (∀ x, P x → Q x) → filter P l `sublist_of` filter Q l.
Proof.
  intros HPQ. induction l as [|x l IH]; [done|].
  rewrite !filter_cons. destruct (decide (P x)) as [HP|HP].
  - rewrite decide_True by auto. by apply sublist_skip.
  - destruct (decide (Q x)); [by apply sublist_cons|done].
Qed.

Lemma criterion_switch_mono s1 s2 ty target :
  stats_le s1 s2 →
  criterion_switch s1 ty target = true → criterion_switch s2 ty target = true.
Proof.
  intros (Hq & Hm & Ha). unfold criterion_switch.
  destruct ty as [t|]; [|done].
  repeat (destruct (String.eqb _ _)); rewrite ?Z.leb_le; try done; lia.
Qed.

(** Once every returned id has been recorded in the unlocked map (and
    nothing was removed from it), the engine returns nothing for the same
    stats and rules, on whatever day it is run again. *)
Theorem checkNewAchievements_nothing_after_merge today today' stats rules
    (unlockedMap merged : gmap string V) :
  (∀ k, lookup_truthy truthy unlockedMap k = true →
        lookup_truthy truthy merged k = true) →
  (∀ a, a ∈ checkNewAchievements truthy today stats rules unlockedMap →
        lookup_truthy truthy merged (ach_id a) = true) →
  checkNewAchievements truthy today' stats rules merged = [].
Proof.
  intros Hkeep Hnew. rewrite checkNewAchievements_filter.
  assert (filter (λ a, unlocks_now truthy stats merged a = true) rules = [])
    as ->; [|done].
  apply elem_of_nil_inv. intros a [Ha Hin]%list_elem_of_filter.
  assert (lookup_truthy truthy merged (ach_id a) = true) as Hm.
  { destruct (lookup_truthy truthy unlockedMap (ach_id a)) eqn:Hold;
      [by apply Hkeep|].
    specialize (Hnew (withDate today a)). apply Hnew.
    rewrite checkNewAchievements_filter. apply list_elem_of_fmap.
    exists a. split; [done|]. apply list_elem_of_filter. split; [|done].
    unfold unlocks_now in *. rewrite Hold.
    by destruct (lookup_truthy truthy merged (ach_id a)). }
  unfold unlocks_now in Ha. by rewrite Hm in Ha.
Qed.

(** Raising the counters never takes an unlock away: what is returned for
    smaller counters is returned, in the same order, for larger ones. *)
Theorem checkNewAchievements_monotone today stats stats' rules
    (unlockedMap : gmap string V) :
  stats_le stats stats' →
  checkNewAchievements truthy today stats rules unlockedMap
  `sublist_of` checkNewAchievements truthy today stats' rules unlockedMap.
Proof.
  intros Hle. rewrite !checkNewAchievements_filter.
  apply fmap_sublist, filter_sublist_impl. intros a.
  unfold unlocks_now. rewrite !andb_true_iff.
  intros (? & Hsw). split; [done|]. by eapply criterion_switch_mono.
Qed.

(** Evaluating a rule list in two parts and concatenating gives what one
    evaluation of the whole list gives. *)
Theorem checkNewAchievements_app today stats rules1 rules2
    (unlockedMap : gmap string V) :
  checkNewAchievements truthy today stats (rules1 ++ rules2) unlockedMap =
  checkNewAchievements truthy today stats rules1 unlockedMap
  ++ checkNewAchievements truthy today stats rules2 unlockedMap.
Proof. by rewrite !checkNewAchievements_filter, filter_app, fmap_app. Qed.

End engine_runs.

Section engine_runs_witnesses.
Import Engine EngineOrder.

Lemma checkNewAchievements_nothing_after_merge_witness :
  checkNewAchievements unlock_truthy "02/03/2025" stats_five_quizzes
    [rule_five_quizzes]
    {["quiz5" := mkUnlockInfo "2025-03-01T10:00:00.000Z" false]} = [].
Proof.
  apply (checkNewAchievements_nothing_after_merge unlock_truthy "01/03/2025"
           "02/03/2025" stats_five_quizzes [rule_five_quizzes] ∅).
  - intros k H. unfold lookup_truthy in *. rewrite lookup_empty in H.
    destruct (decide (k = "quiz5")) as [->|Hne]; [done|].
    by rewrite lookup_singleton_ne.
  - intros a H. vm_compute in H. apply list_elem_of_singleton in H.
    subst a. reflexivity.
Defined.

Lemma checkNewAchievements_monotone_witness :
  checkNewAchievements unlock_truthy "01/03/2025" stats_five_quizzes
    [rule_five_quizzes] ∅
  `sublist_of` checkNewAchievements unlock_truthy "01/03/2025"
    stats_six_quizzes [rule_five_quizzes] ∅.
Proof.
  apply (checkNewAchievements_monotone unlock_truthy "01/03/2025"
           stats_five_quizzes stats_six_quizzes [rule_five_quizzes] ∅).
  unfold stats_le. simpl. lia.
Defined.

End engine_runs_witnesses.

(** ** Shape of the pages and of the reads of the feed *)

Section feed_pages.
Import Types Store Feed FeedViews.
Context {N : Type}.
Implicit Types (R : Remote N) (s : State (N:=N)).

(** Whatever the store answers, the activities fetch issues at most two
    reads, all of the one query over a prefix of at most ten class ids with
    limit ten and the given cursor; the cursor it hands back is the last
    document of the page and [hasMore] says exactly that the page is full;
    for no class at all it issues nothing and returns the empty page. *)
Theorem fetchStudentActivities_page R classIds cursor :
  let '(page, tr) := fetchStudentActivities R classIds cursor in
  Forall (λ ev, ∃ source q,
            ev = Read source (QActivities q)
            ∧ aq_classIn q `prefix_of` classIds
            ∧ (length (aq_classIn q) ≤ 10)%nat
            ∧ aq_limit q = 10%nat
            ∧ aq_startAfter q = cursor) tr
  ∧ (length tr ≤ 2)%nat
  ∧ page_lastDoc page = last (page_activities page)
  ∧ (page_hasMore page = true ↔ length (page_activities page) = 10%nat)
  ∧ (classIds = [] → tr = [] ∧ page = emptyPage).
Proof.
  destruct classIds as [|c ids].
  { unfold fetchStudentActivities. cbn.
    split; [constructor|]. split; [lia|]. by repeat split. }
  rewrite fetchStudentActivities_policy by done. cbn zeta.
  set (q := mkActivityQuery (take 10 (c :: ids)) 10 cursor).
  assert (∀ source, ∃ source' q',
            Read source (QActivities q) = Read source' (QActivities q')
            ∧ aq_classIn q' `prefix_of` (c :: ids)
            ∧ (length (aq_classIn q') ≤ 10)%nat
            ∧ aq_limit q' = 10%nat ∧ aq_startAfter q' = cursor) as Hev.
  { intros source. exists source, q. split; [done|]. subst q. cbn -[take].
    split; [apply prefix_take|]. rewrite length_take. split; [lia|done]. }
  unfold cacheFirstPolicy, pageOf, ACTIVITIES_PER_PAGE.
  destruct (bool_decide _); [|destruct (cacheHit _)];
    (destruct (getActivities R _ q) as [docs|e]; cbn [fst snd];
     (split; [repeat constructor; apply Hev|]);
     (split; [simpl; lia|]);
     (split; [done|]); (split; [|done]);
     cbn [page_hasMore page_activities emptyPage length];
     rewrite ?Nat.eqb_eq; done).
Qed.

(** [loadMoreActivities] does nothing at all when there is no cursor, when
    a load is in flight or when the student has no class; in every case it
    leaves modules, quizzes, classes, notices and both loading flags as they
    were, and the reads it issues are network reads of the activities. *)
Theorem loadMoreActivities_guarded R s :
  let '(s', tr) := loadMoreActivities R s in
  (lastActivityDoc s = None ∨ isLoadingMoreActivities s = true
   ∨ studentClasses s = [] → s' = s ∧ tr = [])
  ∧ modules s' = modules s
  ∧ quizzes s' = quizzes s
  ∧ studentClasses s' = studentClasses s
  ∧ isLoading s' = isLoading s
  ∧ isLoadingMoreActivities s' = isLoadingMoreActivities s
  ∧ toasts s' = toasts s
  ∧ Forall (λ ev, ∃ q, ev = Read DefaultSource (QActivities q)) tr.
Proof.
  unfold loadMoreActivities.
  destruct (lastActivityDoc s) as [cursor|] eqn:Hcur;
    [|repeat split; try done; constructor].
  destruct (isLoadingMoreActivities s) eqn:Hload;
    [repeat split; try done; constructor|].
  destruct (studentClasses s) as [|c cs] eqn:Hcls;
    [repeat split; try done; constructor|].
  cbn [orb length Nat.eqb].
  pose proof (fetchStudentActivities_policy R (cls_id <$> c :: cs)
                (Some cursor)) as Hpol.
  rewrite Hpol by done. cbn zeta.
  rewrite bool_decide_eq_true_2 by (by eexists).
  cbn [cacheFirstPolicy]. unfold pageOf.
  destruct (getActivities R DefaultSource _) as [docs|e]; cbn;
    rewrite ?Hcls; (split; [by intros [?|[?|?]]|]);
    repeat split; try done; repeat constructor; by eexists.
Qed.

End feed_pages.

(** ** What a refresh leaves behind *)

Section refresh_facts.
Import Types Store Feed FeedViews.
Context {N : Type}.
Implicit Types (R : Remote N) (s : State (N:=N)).

Lemma enrich_id (myClasses : list TeacherClass) (act : Activity N) :
  act_id (enrich myClasses act) = act_id act.
Proof. done. Qed.

Lemma fetchStudentActivities_cursor R classIds cursor :
  let page := (fetchStudentActivities R classIds cursor).1 in
  page_lastDoc page = last (page_activities page)
  ∧ page_hasMore page = (length (page_activities page) =? 10)%nat.
Proof.
  destruct classIds as [|c ids]; [done|].
  rewrite fetchStudentActivities_policy by done. cbn zeta.
  unfold cacheFirstPolicy, pageOf, ACTIVITIES_PER_PAGE.
  destruct (bool_decide _); [|destruct (cacheHit _)];
    by destruct (getActivities R _ _) as [docs|e].
Qed.

(** The [try] block either leaves the three pagination slices alone or
    sets them from one and the same page. *)
Lemma refreshBody_pagination R u forceRefresh s :
  let s' := (refreshBody R u forceRefresh s).1.2 in
  isLoading s' = isLoading s
  ∧ isLoadingMoreActivities s' = isLoadingMoreActivities s
  ∧ ((activities s' = activities s
      ∧ lastActivityDoc s' = lastActivityDoc s
      ∧ hasMoreActivities s' = hasMoreActivities s)
     ∨ (hasMoreActivities s' = (length (activities s') =? 10)%nat
        ∧ act_id <$> lastActivityDoc s' = last (act_id <$> activities s'))).
Proof.
  unfold refreshBody. cbv zeta.
  destruct (readClasses _ _) as [[classes|e] tr1]; cbn [fst snd];
    [|by split; [|split; [|left]]].
  destruct (both _ _) as [[(q & p & r & snaps)|e] tr2]; cbn [fst snd];
    [|by split; [|split; [|left]]].
  destruct (bind _ _) as [[[]|e] trA]; cbn [fst snd];
    [|by split; [|split; [|left]]].
  destruct (getModulesProgress R _) as [progress|e]; cbn [fst snd];
    [|by split; [|split; [|left]]].
  pose proof (fetchStudentActivities_cursor R (cls_id <$> classes) None)
    as Hpage.
  destruct (fetchStudentActivities R _ None) as [page tr4].
  destruct Hpage as [Hlast Hmore].
  cbn in *. split; [done|]. split; [done|]. right. split.
  - by rewrite length_fmap.
  - rewrite Hlast, <- list_fmap_compose, !fmap_last. done.
Qed.

(** Every refresh, successful or not, ends with the loading flag cleared
    and the load-more flag untouched, and it either leaves the feed, its
    cursor and its has-more flag exactly as they were or leaves a first page
    behind: has-more says that the list holds ten activities and the cursor
    is the document of the last activity listed. *)
Theorem refreshData_pagination_state R user forceRefresh s :
  let s' := (refreshData R user forceRefresh s).1 in
  isLoading s' = false
  ∧ isLoadingMoreActivities s' = isLoadingMoreActivities s
  ∧ ((activities s' = activities s
      ∧ lastActivityDoc s' = lastActivityDoc s
      ∧ hasMoreActivities s' = hasMoreActivities s)
     ∨ (hasMoreActivities s' = (length (activities s') =? 10)%nat
        ∧ act_id <$> lastActivityDoc s' = last (act_id <$> activities s'))).
Proof.
  unfold refreshData.
  destruct user as [u|]; [|by split; [|split; [|left]]].
  destruct (user_role u) as [[]|]; try by split; [|split; [|left]].
  pose proof (refreshBody_pagination R u forceRefresh (setIsLoading true s))
    as Hbody.
  destruct (refreshBody _ _ _ _) as [[[[]|e] s1] tr];
    cbn in *; destruct Hbody as (_ & ? & ?); by split.
Qed.

End refresh_facts.

(** ** The merged module list, the chunks and the enriched activities *)

Section module_union_facts.
Import Types Store Feed FeedViews.

Lemma map_set_NoDup {V} k (v : V) m :
  NoDup m.*1 → NoDup (Js.map_set k v m).*1.
Proof.
  induction m as [|[k0 v0] m IH]; simpl.
  - intros _. apply NoDup_singleton.
  - intros [Hk0 Hm]%NoDup_cons.
    destruct (String.eqb_spec k k0) as [->|Hne]; simpl.
    + by apply NoDup_cons.
    + apply NoDup_cons. split; [|by apply IH].
      rewrite map_set_keys. intros [?|?]; [congruence|done].
Qed.

Lemma map_set_entries {V} k (v : V) m kv :
  kv ∈ Js.map_set k v m → kv = (k, v) ∨ kv ∈ m.
Proof.
  induction m as [|[k0 v0] m IH]; simpl.
  - intros ->%list_elem_of_singleton. by left.
  - destruct (String.eqb_spec k k0) as [->|Hne].
    + intros [->|?]%elem_of_cons; [by left|]. right. by right.
    + intros [->|Hin]%elem_of_cons; [right; by left|].
      destruct (IH Hin) as [?|?]; [by left|]. right. by right.
Qed.

Lemma map_inv_set origin d m :
  origin d → map_inv origin m → map_inv origin (Js.map_set (mod_id d) d m).
Proof.
  intros Hd (Hk & Hn & Ho). split; [by apply keyed_set|].
  split; [by apply map_set_NoDup|].
  apply Forall_forall. intros kv [->|Hin]%map_set_entries; [done|].
  by eapply Forall_forall in Ho.
Qed.

Lemma fold_set_inv origin (docs : list Module) m :
  (∀ d, d ∈ docs → origin d) → map_inv origin m →
  map_inv origin (foldl (λ m d, Js.map_set (mod_id d) d m) m docs).
Proof.
  revert m. induction docs as [|d docs IH]; intros m Hd Hm; [done|].
  simpl. apply IH.
  - intros d' Hin. apply Hd. by right.
  - apply map_inv_set; [|done]. apply Hd. by left.
Qed.

Lemma fold_set_new_inv (origin : Module → Prop) (reserved : list string)
    (docs : list Module) m :
  (∀ d, d ∈ docs → mod_id d ∉ reserved → origin d) →
  (∀ id, id ∈ reserved → id ∈ m.*1) →
  map_inv origin m →
  let m' := foldl (λ m d, if negb (Js.map_has (mod_id d) m)
                          then Js.map_set (mod_id d) d m else m) m docs in
  map_inv origin m' ∧ ∀ id, id ∈ reserved → id ∈ m'.*1.
Proof.
  revert m. induction docs as [|d docs IH]; intros m Hd Hres Hm; [done|].
  cbn [foldl].
  destruct (Js.map_has (mod_id d) m) eqn:Hhas; cbn [negb].
  - apply IH; [|done|done]. intros d' Hin. apply Hd. by right.
  - apply bool_decide_eq_false in Hhas. apply IH.
    + intros d' Hin. apply Hd. by right.
    + intros id Hid. rewrite map_set_keys. right. by apply Hres.
    + apply map_inv_set; [|done]. apply Hd; [by left|].
      intros Hr. apply Hhas. by apply Hres.
Qed.

Lemma fold_snaps_inv (origin : Module → Prop) (reserved : list string)
    (snaps : list (list Module)) m :
  (∀ snap d, snap ∈ snaps → d ∈ snap → mod_id d ∉ reserved → origin d) →
  (∀ id, id ∈ reserved → id ∈ m.*1) →
  map_inv origin m →
  map_inv origin
    (foldl (λ m snap,
              foldl (λ m d, if negb (Js.map_has (mod_id d) m)
                            then Js.map_set (mod_id d) d m else m) m snap)
       m snaps).
Proof.
  revert m. induction snaps as [|snap snaps IH]; intros m Hd Hres Hm;
    [done|].
  cbn [foldl].
  destruct (fold_set_new_inv origin reserved snap m) as [Hm' Hres'];
    [|done|done|].
  { intros d Hin. apply (Hd snap); [by left|done]. }
  apply IH; [|done|done]. intros s d Hs. apply Hd. by right.
Qed.

(** The module list never holds one id twice, and for every id the version
    kept is the public one whenever the public snapshot has that id; a module
    taken from a class snapshot has an id no public module has. *)
Theorem rawModules_public_first (publicModulesSnap : list Module)
    (classModuleSnaps : list (list Module)) :
  NoDup (mod_id <$> rawModules publicModulesSnap classModuleSnaps)
  ∧ ∀ m, m ∈ rawModules publicModulesSnap classModuleSnaps →
      m ∈ publicModulesSnap
      ∨ (mod_id m ∉ mod_id <$> publicModulesSnap)
        ∧ ∃ snap, snap ∈ classModuleSnaps ∧ m ∈ snap.
Proof.
  set (origin := λ m : Module,
         m ∈ publicModulesSnap
         ∨ (mod_id m ∉ mod_id <$> publicModulesSnap)
           ∧ ∃ snap, snap ∈ classModuleSnaps ∧ m ∈ snap).
  unfold rawModules.
  set (m1 := foldl (λ m d, Js.map_set (mod_id d) d m) [] publicModulesSnap).
  assert (map_inv origin m1) as Hm1.
  { apply fold_set_inv; [by left|]. by repeat split; constructor. }
  assert (∀ id, id ∈ mod_id <$> publicModulesSnap → id ∈ m1.*1) as Hres.
  { intros id Hid.
    destruct (fold_set_spec publicModulesSnap []) as [_ Hids]; [constructor|].
    apply Hids. by right. }
  pose proof (fold_snaps_inv origin (mod_id <$> publicModulesSnap)
                classModuleSnaps m1) as Hfinal.
  destruct Hfinal as (Hk & Hn & Ho); [|done|done|].
  { intros snap d Hs Hd Hnot. right. split; [done|]. by exists snap. }
  split.
  - by rewrite keyed_values.
  - intros m (kv & -> & Hin)%list_elem_of_fmap.
    by eapply Forall_forall in Ho.
Qed.

(** The loop issues one class-module query for every started ten of class
    ids. *)
Theorem classChunks_count (myClassIds : list string) :
  length (classChunks myClassIds) = ((length myClassIds + 9) / 10)%nat.
Proof.
  assert (∀ fuel i, (length myClassIds - i ≤ fuel)%nat →
            length (chunkLoop fuel i myClassIds) =
            ((length myClassIds - i + 9) / 10)%nat) as Hloop.
  { induction fuel as [|fuel IH]; intros i Hfuel; cbn [chunkLoop length].
    - replace (length myClassIds - i)%nat with 0%nat by lia. done.
    - destruct (Nat.ltb_spec i (length myClassIds)) as [Hlt|Hge];
        cbn [length].
      + rewrite IH by lia.
        destruct (decide (length myClassIds - i ≤ 10)%nat) as [Hlast|Hmore].
        * replace (length myClassIds - (i + 10))%nat with 0%nat by lia.
          replace (length myClassIds - i + 9)%nat
            with (length myClassIds - i - 1 + 1 * 10)%nat by lia.
          rewrite Nat.div_add by done.
          rewrite (Nat.div_small (length myClassIds - i - 1)) by lia. done.
        * replace (length myClassIds - i + 9)%nat
            with (length myClassIds - (i + 10) + 9 + 1 * 10)%nat by lia.
          rewrite Nat.div_add by done. lia.
      + replace (length myClassIds - i)%nat with 0%nat by lia. done. }
  unfold classChunks. destruct myClassIds as [|c ids]; [done|].
  cbn [length Nat.ltb Nat.leb]. rewrite Hloop by (simpl; lia).
  by rewrite Nat.sub_0_r.
Qed.

End module_union_facts.

Section enrich_facts.
Import Types Store Feed FeedViews.
Context {N : Type}.

(** Enriching is idempotent; a real class name already on the activity is
    kept; and a name that is filled in is that of the first class of the
    list that has the activity's class id. *)
Theorem enrich_idempotent (myClasses : list TeacherClass)
    (act : Activity N) :
  enrich myClasses (enrich myClasses act) = enrich myClasses act
  ∧ (∀ name, act_className act = Some name → name ≠ "" →
             name ≠ "Turma desconhecida" → enrich myClasses act = act)
  ∧ (act_className (enrich myClasses act) = act_className act
     ∨ ∃ cls, List.find (λ c, String.eqb (cls_id c) (act_classId act))
                myClasses = Some cls
              ∧ act_className (enrich myClasses act) = Some (cls_name cls)).
Proof.
  destruct act as [id title classId className unidade points visible created
                     subs].
  unfold enrich. cbn.
  destruct (List.find _ myClasses) as [cls|] eqn:Hfind.
  - split; [|split].
    + destruct className as [n|]; cbn.
      * destruct (String.eqb n "" || String.eqb n "Turma desconhecida")
          eqn:Hn; cbn; rewrite ?Hn; [|done].
        by destruct (String.eqb (cls_name cls) ""
                     || String.eqb (cls_name cls) "Turma desconhecida").
      * by destruct (String.eqb (cls_name cls) ""
                     || String.eqb (cls_name cls) "Turma desconhecida").
    + intros name [= ->] H1 H2.
      apply String.eqb_neq in H1, H2. by rewrite H1, H2.
    + destruct className as [n|]; cbn.
      * destruct (String.eqb n "" || String.eqb n "Turma desconhecida");
          [right; by exists cls|by left].
      * right. by exists cls.
  - split; [|split].
    + destruct className as [n|]; cbn; [|done].
      destruct (String.eqb n "" || String.eqb n "Turma desconhecida")
        eqn:Hn; cbn; by rewrite ?Hn.
    + intros name [= ->] H1 H2.
      apply String.eqb_neq in H1, H2. by rewrite H1, H2.
    + left. destruct className as [n|]; [|done].
      by destruct (String.eqb n "" || String.eqb n "Turma desconhecida").
Qed.



End enrich_facts.

(** ** Loading the history of one class *)

Section history_facts.
Import Types Store Feed History.
Context {N : Type} (time : Activity N → Z).

Lemma uniqueNew_unseen (fetched prev : list (Activity N)) :
  filter (λ a, negb (bool_decide
                 (act_id a ∈ (list_to_set (act_id <$> prev) : gset string)))
               = true) fetched
  = unseen fetched prev.
Proof.
  unfold unseen. apply list_filter_iff. intros a.
  rewrite negb_true_iff, bool_decide_eq_false, elem_of_list_to_set. done.
Qed.

Lemma mergeHistory_cases (fetched prev : list (Activity N)) :
  (unseen fetched prev = [] ∧ mergeHistory time fetched prev = prev)
  ∨ (unseen fetched prev ≠ []
     ∧ mergeHistory time fetched prev =
       Js.sort (Js.cmp_desc time) (prev ++ unseen fetched prev)).
Proof.
  unfold mergeHistory. rewrite uniqueNew_unseen.
  destruct (unseen fetched prev) as [|a l]; [by left|right]. by split.
Qed.

Lemma mergeHistory_perm (fetched prev : list (Activity N)) :
  mergeHistory time fetched prev ≡ₚ prev ++ unseen fetched prev.
Proof.
  destruct (mergeHistory_cases fetched prev) as [[Hu ->]|[_ ->]].
  - by rewrite Hu, app_nil_r.
  - apply sort_perm.
Qed.

Lemma mergeHistory_ids (fetched prev : list (Activity N)) id :
  id ∈ act_id <$> mergeHistory time fetched prev ↔
  id ∈ act_id <$> prev ∨ id ∈ act_id <$> fetched.
Proof.
  rewrite (mergeHistory_perm fetched prev), fmap_app, elem_of_app.
  unfold unseen. split.
  - intros [?|(a & -> & [_ Ha]%list_elem_of_filter)%list_elem_of_fmap];
      [by left|].
    right. apply list_elem_of_fmap. by exists a.
  - intros [?|(a & -> & Ha)%list_elem_of_fmap]; [by left|].
    destruct (decide (act_id a ∈ act_id <$> prev)); [by left|].
    right. apply list_elem_of_fmap. exists a. split; [done|].
    by apply list_elem_of_filter.
Qed.

(** The merge is a union by id: every activity of the list is kept, each
    fetched activity whose id was not in the list is added once, nothing else
    is; a list and a fetched page without repeated ids give a list without
    repeated ids. *)
Theorem mergeHistory_union (fetched prev : list (Activity N)) :
  mergeHistory time fetched prev ≡ₚ prev ++ unseen fetched prev
  ∧ (∀ id, id ∈ act_id <$> mergeHistory time fetched prev ↔
           id ∈ act_id <$> prev ∨ id ∈ act_id <$> fetched)
  ∧ (NoDup (act_id <$> prev) → NoDup (act_id <$> fetched) →
     NoDup (act_id <$> mergeHistory time fetched prev)).
Proof.
  pose proof (mergeHistory_perm fetched prev) as Hp.
  split; [done|]. split.
  - apply mergeHistory_ids.
  - intros Hprev Hfetched. rewrite Hp, fmap_app. apply NoDup_app.
    split; [done|]. split.
    + intros id Hin (a & -> & [Ha _]%list_elem_of_filter)%list_elem_of_fmap.
      done.
    + unfold unseen. clear Hp.
      induction fetched as [|a l IH]; [constructor|].
      apply NoDup_cons in Hfetched as [Ha Hl].
      rewrite filter_cons. case_decide; [|by apply IH].
      rewrite fmap_cons. apply NoDup_cons. split; [|by apply IH].
      intros (b & Hb & [_ Hin]%list_elem_of_filter)%list_elem_of_fmap.
      apply Ha. apply list_elem_of_fmap. by exists b.
Qed.

(** A list that is already in descending order comes out of the sort as
    it went in. *)
Lemma sort_sorted_id (l : list (Activity N)) :
  StronglySorted (λ a b, time b ≤ time a) l →
  Js.sort (Js.cmp_desc time) l = l.
Proof.
  induction 1 as [|x l Hl IH Hx]; [done|].
  cbn [Js.sort foldr]. fold (Js.sort (Js.cmp_desc time) l). rewrite IH.
  destruct l as [|y l']; [done|]. cbn [Js.sort_insert].
  apply Forall_cons in Hx as [Hy _].
  unfold Js.cmp_desc. destruct (Z.leb_spec (time y - time x) 0); [done|lia].
Qed.

(** When nothing is new the list is returned exactly as it was, in
    whatever order it is; otherwise the result is in descending order of the
    comparator's key, activities of equal key keeping the order
    list-then-fetched.  The key need not tell the activities apart: when the
    list followed by the new activities is already in descending key order,
    and so whenever every key is zero, the result is the list followed by
    the new activities. *)
Theorem mergeHistory_order (fetched prev : list (Activity N)) :
  (unseen fetched prev = [] → mergeHistory time fetched prev = prev)
  ∧ (unseen fetched prev ≠ [] →
     StronglySorted (λ a b, time b ≤ time a) (mergeHistory time fetched prev)
     ∧ ∀ t, filter (λ a, time a = t) (mergeHistory time fetched prev) =
            filter (λ a, time a = t) (prev ++ unseen fetched prev))
  ∧ (StronglySorted (λ a b, time b ≤ time a) (prev ++ unseen fetched prev) →
     mergeHistory time fetched prev = prev ++ unseen fetched prev)
  ∧ ((∀ a, a ∈ prev ++ unseen fetched prev → time a = 0) →
     mergeHistory time fetched prev = prev ++ unseen fetched prev).
Proof.
  assert (StronglySorted (λ a b, time b ≤ time a) (prev ++ unseen fetched prev)
          → mergeHistory time fetched prev = prev ++ unseen fetched prev)
    as Hsorted.
  { intros Hs.
    destruct (mergeHistory_cases fetched prev) as [[Hu ->]|[Hu ->]].
    - by rewrite Hu, app_nil_r.
    - by apply sort_sorted_id. }
  split; [|split; [|split; [done|]]].
  - destruct (mergeHistory_cases fetched prev) as [[Hu ->]|[Hu ->]];
      [done|by intros ?].
  - destruct (mergeHistory_cases fetched prev) as [[Hu ->]|[Hu ->]];
      [by intros []|].
    intros _. split.
    + apply (sort_sorted time).
    + intros t. apply (sort_stable time).
  - intros Hzero. apply Hsorted. clear Hsorted.
    induction (prev ++ unseen fetched prev) as [|x l IH]; [constructor|].
    constructor.
    + apply IH. intros a Ha. apply Hzero. by right.
    + apply Forall_forall. intros y Hy.
      rewrite (Hzero x) by left. rewrite (Hzero y) by (by right). done.
Qed.

(** Merging the same fetched page a second time changes nothing. *)
Theorem mergeHistory_idempotent (fetched prev : list (Activity N)) :
  mergeHistory time fetched (mergeHistory time fetched prev) =
  mergeHistory time fetched prev.
Proof.
  destruct (mergeHistory_cases fetched (mergeHistory time fetched prev))
    as [[_ ->]|[Hu _]]; [done|].
  exfalso. apply Hu. unfold unseen. apply elem_of_nil_inv.
  intros a [Ha Hin]%list_elem_of_filter. apply Ha.
  apply mergeHistory_ids. right.
  apply list_elem_of_fmap. by exists a.
Qed.

(** Loading a class history issues the query with the cache option first
    and without it only when the first call returns no document or fails; it
    never touches the cursor, the has-more flag, the classes, the modules or
    the quizzes; when the call it ends up with fails the feed stays as it is
    and one error notice is shown; without a signed-in user nothing
    happens. *)
Theorem fetchClassSpecificHistory_frame
    (answer : Source → Outcome (list (Activity N))) user classId
    (s : State (N:=N)) :
  let '(s', asked) := fetchClassSpecificHistory time answer user classId s in
  lastActivityDoc s' = lastActivityDoc s
  ∧ hasMoreActivities s' = hasMoreActivities s
  ∧ studentClasses s' = studentClasses s
  ∧ modules s' = modules s
  ∧ quizzes s' = quizzes s
  ∧ (user = None → s' = s ∧ asked = [])
  ∧ (is_Some user →
       asked = (if cacheHit (answer CacheSource) then [CacheSource]
                else [CacheSource; DefaultSource])
       ∧ ((∃ docs, (if cacheHit (answer CacheSource) then answer CacheSource
                    else answer DefaultSource) = Ok docs
                   ∧ toasts s' = toasts s)
          ∨ (activities s' = activities s
             ∧ toasts s' =
               toasts s ++ [("Erro ao carregar histórico da turma.", "error")]))).
Proof.
  unfold fetchClassSpecificHistory, cacheHit.
  destruct user as [u|];
    [|do 6 (split; [done|]); by intros [? ?]].
  destruct (answer CacheSource) as [[|d docs]|e]; cbn [empty];
    try (destruct (answer DefaultSource) as [docs'|e']);
    cbn; do 6 (split; [done|]); intros _;
    (split; [done|]); first [left; by eexists | by right].
Qed.

End history_facts.

Section history_witness.
Import Types Store Feed History.

(** The sample feed and history merge into three activities, newest
    first. *)
Example mergeHistory_sample :
  act_id <$> mergeHistory act_createdAt sampleHistory sampleFeed =
  ["a03"; "a02"; "a01"].
Proof. vm_compute. reflexivity. Qed.

End history_witness.

(** ** Marking notifications as read *)

Section sort_filter_facts.
Context {A : Type} (key : A → Z) (P : A → Prop) `{∀ x, Decision (P x)}.

Lemma sort_insert_filter x (l : list A) :
  StronglySorted (Js.desc_by key) l →
  filter P (Js.sort_insert (Js.cmp_desc key) x l) =
  if decide (P x) then Js.sort_insert (Js.cmp_desc key) x (filter P l)
  else filter P l.
Proof.
  induction 1 as [|y l Hl IH Hy]; simpl.
  - rewrite filter_cons, filter_nil. by case_decide.
  - destruct (Z.leb_spec (Js.cmp_desc key x y) 0) as [Hle|Hgt].
    + rewrite filter_cons. destruct (decide (P x)) as [HPx|HPx]; [|done].
      rewrite filter_cons. destruct (decide (P y)) as [HPy|HPy].
      * simpl. destruct (Z.leb_spec (Js.cmp_desc key x y) 0); [done|lia].
      * (* x goes in front of whatever is left: all of it is below [y] *)
        clear IH Hl. induction l as [|z l IHl]; [done|].
        apply Forall_cons in Hy as [Hz Hy].
        rewrite filter_cons. destruct (decide (P z)); [|by apply IHl].
        simpl. unfold Js.cmp_desc, Js.desc_by in *.
        destruct (Z.leb_spec (key z - key x) 0); [done|lia].
    + rewrite !filter_cons, IH.
      destruct (decide (P x)), (decide (P y)); try done.
      simpl. destruct (Z.leb_spec (Js.cmp_desc key x y) 0); [lia|done].
Qed.

(** Filtering a sorted array and sorting a filtered one give the same
    array. *)
Lemma sort_filter (l : list A) :
  filter P (Js.sort (Js.cmp_desc key) l) =
  Js.sort (Js.cmp_desc key) (filter P l).
Proof.
  induction l as [|x l IH]; [done|]. simpl.
  rewrite sort_insert_filter by apply sort_sorted.
  rewrite filter_cons, IH. by destruct (decide (P x)).
Qed.

End sort_filter_facts.

Section mark_read_facts.
Import Types Notif NotifActions.

Local Abbreviation unread := (λ n : Notification, negb (n_read n) = true).
Local Abbreviation merged s :=
  (applyReceipt (readReceipts s)
   <$> (privateNotifications s ++ broadcastNotifications s)).

Lemma view_perm s : view s ≡ₚ merged s.
Proof. apply sort_perm. Qed.

Lemma someWithId_spec l id : someWithId l id = true ↔ id ∈ n_id <$> l.
Proof.
  unfold someWithId. rewrite existsb_exists, list_elem_of_fmap.
  split.
  - intros (n & Hin%list_elem_of_In & <-%String.eqb_eq). by exists n.
  - intros (n & -> & Hin). exists n. split; [by apply list_elem_of_In|].
    apply String.eqb_refl.
Qed.

Lemma filter_id_fmap id (f : Notification → Notification)
    (l : list Notification) :
  (∀ n, n_id (f n) = n_id n) →
  filter (λ n, n_id n ≠ id) (f <$> l) = f <$> filter (λ n, n_id n ≠ id) l.
Proof.
  intros Hf. induction l as [|n l IH]; [done|].
  rewrite fmap_cons, !filter_cons, IH.
  destruct (decide (n_id n ≠ id)) as [Hn|Hn].
  - by rewrite decide_True by (by rewrite Hf).
  - by rewrite decide_False by (by rewrite Hf).
Qed.

Lemma view_filter_id id s :
  filter (λ n, n_id n ≠ id) (view s) =
  Js.sort byTimestampDesc
    (applyReceipt (readReceipts s)
     <$> filter (λ n, n_id n ≠ id)
           (privateNotifications s ++ broadcastNotifications s)).
Proof.
  unfold view, notifications, byTimestampDesc.
  by rewrite (sort_filter n_timestamp), filter_id_fmap.
Qed.

Lemma filter_sublist_mono {A} (P : A → Prop) `{∀ x, Decision (P x)}
    (l1 l2 : list A) :
  l1 `sublist_of` l2 → filter P l1 `sublist_of` filter P l2.
Proof.
  induction 1 as [|x l1 l2 _ IH|x l1 l2 _ IH]; [done|..];
    rewrite !filter_cons; case_decide; try done.
  - by apply sublist_skip.
  - by apply sublist_cons.
Qed.

Lemma unread_le_pointwise (f g : Notification → Notification) l :
  (∀ n, unread (f n) → unread (g n)) →
  (length (filter unread (f <$> l)) ≤ length (filter unread (g <$> l)))%nat.
Proof.
  intros Hfg. induction l as [|n l IH]; [done|].
  rewrite !fmap_cons, !filter_cons.
  destruct (decide (unread (f n))) as [Hf|Hf].
  - rewrite decide_True by auto. simpl. lia.
  - case_decide; simpl; lia.
Qed.

(** Marking one notification as read.  Without a signed-in user, or when
    the remote write fails, nothing changes.  Otherwise a private id makes
    the handler update that notification document and drop the item from the
    private list, any other id makes it write a receipt for it, after which
    every item with that id shows as read.  In all cases the unread count
    does not grow and the items with other ids stay as they were, in the same
    order. *)
Theorem handleMarkNotificationAsRead_effect fault user id s :
  let '(s', writes) := handleMarkNotificationAsRead fault user id s in
  (unreadNotificationCount (view s') ≤ unreadNotificationCount (view s))%nat
  ∧ filter (λ n, n_id n ≠ id) (view s') = filter (λ n, n_id n ≠ id) (view s)
  ∧ (user = None ∨ is_Some fault → s' = s ∧ writes = [])
  ∧ (is_Some user → fault = None →
     id ∈ n_id <$> privateNotifications s →
     writes = [UpdateRead id]
     ∧ privateNotifications s' =
         filter (λ n, n_id n ≠ id) (privateNotifications s)
     ∧ broadcastNotifications s' = broadcastNotifications s
     ∧ readReceipts s' = readReceipts s)
  ∧ (is_Some user → fault = None →
     id ∉ n_id <$> privateNotifications s →
     writes = [SetReceipt id]
     ∧ privateNotifications s' = privateNotifications s
     ∧ broadcastNotifications s' = broadcastNotifications s
     ∧ readReceipts s' = {[id]} ∪ readReceipts s
     ∧ ∀ n, n ∈ view s' → n_id n = id → n_read n = true).
Proof.
  unfold handleMarkNotificationAsRead.
  destruct user as [u|]; cycle 1.
  { split; [done|]. split; [done|]. split; [done|].
    split; by intros [? [=]]. }
  destruct (someWithId (privateNotifications s) id) eqn:Hpriv.
  - apply someWithId_spec in Hpriv.
    destruct fault as [e|].
    { split; [done|]. split; [done|]. split; [done|]. split; [done|].
      by intros _ _ ?. }
    split; [|split; [|split; [|split; [done|]]]].
    + rewrite (unread_count_perm _ _ (view_perm s)),
        (unread_count_perm _ _ (view_perm _)).
      unfold unreadNotificationCount. cbn.
      apply sublist_length, filter_sublist_mono, fmap_sublist.
      apply sublist_app; [apply sublist_filter|done].
    + rewrite !view_filter_id. cbn.
      by rewrite !filter_app, list_filter_filter_r by tauto.
    + by intros [[=]|[? [=]]].
    + by intros _ _ ?.
  - apply not_true_iff_false in Hpriv. rewrite someWithId_spec in Hpriv.
    destruct fault as [e|].
    { split; [done|]. split; [done|]. split; [done|].
      split; by intros _ [=]. }
    split; [|split; [|split; [|split; [by intros _ _ ?|]]]].
    + rewrite (unread_count_perm _ _ (view_perm s)),
        (unread_count_perm _ _ (view_perm _)).
      unfold unreadNotificationCount. cbn.
      apply unread_le_pointwise. intros n. cbn.
      rewrite !negb_true_iff, !orb_false_iff, !bool_decide_eq_false.
      set_solver.
    + rewrite !view_filter_id. cbn. f_equal.
      apply Forall_fmap_ext_1, Forall_forall.
      intros n [Hn _]%list_elem_of_filter. unfold applyReceipt. f_equal.
      f_equal. apply bool_decide_ext. set_solver.
    + by intros [[=]|[? [=]]].
    + intros _ _ _. do 4 (split; [done|]).
      intros n Hin Hid. rewrite view_perm in Hin.
      apply list_elem_of_fmap in Hin as (n0 & -> & _). cbn in *.
      apply orb_true_iff. right. apply bool_decide_eq_true. set_solver.
Qed.

Lemma filter_all {A} (P : A → Prop) `{∀ x, Decision (P x)} (l : list A) :
  Forall P l → filter P l = l.
Proof.
  induction 1 as [|x l Hx _ IH]; [done|].
  by rewrite filter_cons, decide_True, IH.
Qed.

Lemma unread_drop_id R id (l : list Notification) n0 :
  NoDup (n_id <$> l) → n0 ∈ l → n_id n0 = id →
  unread (applyReceipt R n0) →
  (length (filter unread (applyReceipt R <$> filter (λ n, n_id n ≠ id) l)) + 1
   = length (filter unread (applyReceipt R <$> l)))%nat.
Proof.
  intros Hnd Hin Hid Hun. induction l as [|x l IH]; [by inv Hin|].
  rewrite fmap_cons in Hnd. apply NoDup_cons in Hnd as [Hx Hnd].
  apply elem_of_cons in Hin as [<-|Hin].
  - rewrite filter_cons, decide_False by tauto.
    rewrite fmap_cons, (filter_cons _ (applyReceipt R n0)), decide_True by done.
    assert (filter (λ n, n_id n ≠ id) l = l) as ->; [|simpl; lia].
    apply filter_all, Forall_forall. intros y Hy Heq.
    apply Hx, list_elem_of_fmap. exists y. by rewrite Heq.
  - assert (n_id x ≠ id) as Hne.
    { intros Heq. apply Hx, list_elem_of_fmap. exists n0. by rewrite Heq. }
    rewrite filter_cons, decide_True by done.
    rewrite !fmap_cons, !filter_cons. specialize (IH Hnd Hin).
    case_decide; simpl; lia.
Qed.

Lemma unread_add_receipt R id (l : list Notification) n0 :
  NoDup (n_id <$> l) → n0 ∈ l → n_id n0 = id →
  unread (applyReceipt R n0) →
  (length (filter unread (applyReceipt ({[id]} ∪ R) <$> l)) + 1
   = length (filter unread (applyReceipt R <$> l)))%nat.
Proof.
  intros Hnd Hin Hid Hun.
  rewrite <-(unread_drop_id R id l n0) by done. f_equal.
  clear Hin Hun. induction l as [|x l IH]; [done|].
  rewrite fmap_cons in Hnd. apply NoDup_cons in Hnd as [Hx Hnd].
  rewrite fmap_cons, !filter_cons. specialize (IH Hnd).
  destruct (decide (n_id x ≠ id)) as [Hne|Heq].
  - rewrite fmap_cons, filter_cons.
    assert (n_read (applyReceipt ({[id]} ∪ R) x) = n_read (applyReceipt R x))
      as Hsame.
    { cbn. f_equal. apply bool_decide_ext. set_solver. }
    rewrite Hsame. case_decide; simpl; lia.
  - rewrite decide_False; [done|]. cbn.
    rewrite negb_true_iff, orb_false_iff, bool_decide_eq_false.
    apply dec_stable in Heq. set_solver.
Qed.

(** When no two notifications of the private and broadcast lists share an
    id, marking an unread item of the merged list as read, with a signed-in
    user and the remote write accepted, lowers the unread count by exactly
    one. *)
Theorem handleMarkNotificationAsRead_decrements u id s n :
  NoDup (n_id <$> (privateNotifications s ++ broadcastNotifications s)) →
  n ∈ view s → n_id n = id → n_read n = false →
  (unreadNotificationCount
     (view (handleMarkNotificationAsRead None (Some u) id s).1) + 1
   = unreadNotificationCount (view s))%nat.
Proof.
  intros Hnd Hin Hid Hread.
  rewrite (unread_count_perm _ _ (view_perm s)),
    (unread_count_perm _ _ (view_perm _)).
  rewrite view_perm in Hin.
  apply list_elem_of_fmap in Hin as (n0 & -> & Hin0). cbn in Hid.
  assert (unread (applyReceipt (readReceipts s) n0)) as Hun
    by by rewrite Hread.
  unfold handleMarkNotificationAsRead, unreadNotificationCount.
  destruct (someWithId (privateNotifications s) id) eqn:Hpriv; cbn.
  - apply someWithId_spec in Hpriv.
    rewrite <-(unread_drop_id _ id _ n0 Hnd Hin0 Hid Hun).
    rewrite filter_app. do 5 f_equal. symmetry.
    apply filter_all, Forall_forall. intros y Hy Heq.
    rewrite fmap_app in Hnd. apply NoDup_app in Hnd as (_ & Hdisj & _).
    apply (Hdisj id); [done|]. apply list_elem_of_fmap. by exists y.
  - by apply (unread_add_receipt _ id _ n0).
Qed.

Lemma handleMarkNotificationAsRead_decrements_witness :
  (unreadNotificationCount
     (view (handleMarkNotificationAsRead None (Some Firestore.student) "b3"
              sampleState).1) + 1
   = unreadNotificationCount (view sampleState))%nat.
Proof.
  apply (handleMarkNotificationAsRead_decrements Firestore.student "b3"
           sampleState
           (mkNotification "b3" "Aviso da turma" "Reunião de pais" "medium"
              ("dashboard", None) false 500 (Some "u1") None)).
  - vm_compute. repeat constructor; set_solver.
  - vm_compute. set_solver.
  - reflexivity.
  - reflexivity.
Defined.

Lemma markAllBatch_covers s :
  (∀ n, n ∈ view s → n_read n = false →
     UpdateRead (n_id n) ∈ markAllBatch s
     ∨ SetReceipt (n_id n) ∈ markAllBatch s)
  ∧ (∀ id, UpdateRead id ∈ markAllBatch s →
       id ∈ n_id <$> privateNotifications s
       ∧ ∃ n, n ∈ view s ∧ n_id n = id ∧ n_read n = false)
  ∧ (∀ id, SetReceipt id ∈ markAllBatch s →
       id ∈ n_id <$> broadcastNotifications s ∧ id ∉ readReceipts s).
Proof.
  unfold markAllBatch. split; [|split].
  - intros n Hin Hread.
    destruct (someWithId (privateNotifications s) (n_id n)) eqn:Hpriv.
    + left. apply list_elem_of_bind. exists n. split; [|done].
      rewrite Hpriv, Hread. cbn. by left.
    + right. apply list_elem_of_bind. exists n. split; [|done].
      rewrite Hpriv. cbn [andb].
      pose proof Hin as Hin'. rewrite view_perm in Hin'.
      apply list_elem_of_fmap in Hin' as (n0 & -> & Hin0). cbn in *.
      apply orb_false_iff in Hread as [Hr0 Hrec]. rewrite Hrec.
      apply not_true_iff_false in Hpriv. rewrite someWithId_spec in Hpriv.
      apply elem_of_app in Hin0 as [Hp|Hb].
      { exfalso. apply Hpriv, list_elem_of_fmap. by exists n0. }
      assert (someWithId (broadcastNotifications s) (n_id n0) = true) as ->.
      { apply someWithId_spec, list_elem_of_fmap. by exists n0. }
      cbn. by left.
  - intros id (n & Hop & Hin)%list_elem_of_bind.
    destruct (someWithId (privateNotifications s) (n_id n)) eqn:Hpriv;
      destruct (n_read n) eqn:Hread; cbn in Hop;
      repeat match type of Hop with
             | context [if ?b then _ else _] => destruct b
             end;
      try (by apply elem_of_nil in Hop);
      apply list_elem_of_singleton in Hop; try done.
    injection Hop as ->. split; [by apply someWithId_spec|]. by exists n.
  - intros id (n & Hop & Hin)%list_elem_of_bind.
    destruct (someWithId (privateNotifications s) (n_id n) && negb (n_read n));
      [by apply list_elem_of_singleton in Hop|].
    destruct (someWithId (broadcastNotifications s) (n_id n)) eqn:Hbc;
      [|by apply elem_of_nil in Hop].
    destruct (bool_decide (n_id n ∈ readReceipts s)) eqn:Hrec;
      [by apply elem_of_nil in Hop|].
    cbn in Hop. apply list_elem_of_singleton in Hop. injection Hop as ->.
    split; [by apply someWithId_spec|]. by apply bool_decide_eq_false in Hrec.
Qed.

(** "Mark all as read": without a signed-in user, or when the commit is
    rejected, nothing is written.  Otherwise every unread item of the merged
    list gets a write.  In all cases a document update is only issued for the
    id of a private notification that shows as unread, and a receipt only for
    the id of a broadcast that has no receipt yet. *)
Theorem handleMarkAllNotificationsRead_batch fault user s :
  let writes := handleMarkAllNotificationsRead fault user s in
  (user = None ∨ is_Some fault → writes = [])
  ∧ (is_Some user → fault = None →
     ∀ n, n ∈ view s → n_read n = false →
       UpdateRead (n_id n) ∈ writes ∨ SetReceipt (n_id n) ∈ writes)
  ∧ (∀ id, UpdateRead id ∈ writes →
       id ∈ n_id <$> privateNotifications s
       ∧ ∃ n, n ∈ view s ∧ n_id n = id ∧ n_read n = false)
  ∧ (∀ id, SetReceipt id ∈ writes →
       id ∈ n_id <$> broadcastNotifications s ∧ id ∉ readReceipts s).
Proof.
  destruct (markAllBatch_covers s) as (Hall & Hupd & Hrec).
  unfold handleMarkAllNotificationsRead.
  destruct user as [u|], fault as [e|]; cbn zeta;
    (split; [|split; [|split]]);
    try (by intros ? ?%elem_of_nil); try done.
  intros [[=]|[? [=]]].
Qed.

End mark_read_facts.

(** ** Experience points of a quiz completion *)

Section quiz_facts.
Import Types Store QuizFlow.

(** What one run of the handler can be: nothing happened, it failed before
    or after the result document was written, or it went through with some
    amount of xp. *)
Lemma handleQuizComplete_cases faults user quizId title score total db s :
  let previous := recordedAttempts db quizId in
  let earned := if previous =? 0 then score * 10 else 0 in
  let written :=
    mkDb (<[quizId :=
              mkQuizResult quizId (Some title) (Some score) (Some total)
                (increment 1 (storedAttempts db quizId))
                (Some (match quiz_results db !! quizId with
                       | Some data => Z.max (num_or0 (qr_bestScore data)) score
                       | None => score
                       end))]> (quiz_results db))
      (achievements_xp db) in
  let failed := addToast "Erro ao salvar seu resultado." "error" s in
  let r := handleQuizComplete faults user quizId title score total db s in
  (user = None ∧ r = (0, db, s))
  ∨ (is_Some user
     ∧ (is_Some (getResultFails faults)
        ∨ getResultFails faults = None ∧ is_Some (setResultFails faults))
     ∧ r = (0, db, failed))
  ∨ (is_Some user ∧ getResultFails faults = None
     ∧ setResultFails faults = None ∧ 0 < earned
     ∧ is_Some (setStatsFails faults) ∧ r = (0, written, failed))
  ∨ (is_Some user ∧ getResultFails faults = None
     ∧ setResultFails faults = None ∧ 0 < earned
     ∧ setStatsFails faults = None
     ∧ ∃ s', r = (earned,
                  mkDb (quiz_results written)
                    (increment earned (achievements_xp db)), s')
             ∧ userStats s' =
                 mkUserStats (xp (userStats s) + earned)
                   ((xp (userStats s) + earned) `div` 100 + 1)
                   (xpForNextLevel (userStats s)) (levelName (userStats s))
             ∧ quizzes s' = bumpAttempts quizId (quizzes s))
  ∨ (is_Some user ∧ getResultFails faults = None
     ∧ setResultFails faults = None ∧ earned ≤ 0
     ∧ ∃ s', r = (earned, written, s')
             ∧ userStats s' = userStats s
             ∧ quizzes s' = bumpAttempts quizId (quizzes s)).
Proof.
  cbv zeta. unfold handleQuizComplete, quizCompleteBody, recordedAttempts,
    storedAttempts.
  destruct user as [u|]; [right|by left].
  destruct (getResultFails faults) as [e1|]; [left; by eauto 10|].
  destruct (setResultFails faults) as [e2|]; [left; by eauto 10|].
  right.
  set (previous := match quiz_results db !! quizId with
                   | Some data => num_or0 (qr_attempts data)
                   | None => 0 end).
  set (earned := if previous =? 0 then score * 10 else 0).
  destruct (Z.ltb_spec 0 earned) as [Hpos|Hle].
  - destruct (setStatsFails faults) as [e3|]; [left|right; left].
    + by eauto 10.
    + do 5 (split; [by eauto|]). by eexists.
  - right. right. do 4 (split; [by eauto|]).
    destruct (0 <? previous); [|destruct (score =? 0)]; by eexists.
Qed.

(** The xp shown locally and the xp counter of the store always move
    together: both grow by the returned amount when it is positive and stay
    as they are otherwise.  The level is recomputed as xp/100 + 1 when xp is
    gained; the level name and the xp of the next level are never touched.
    When the user is not signed in, or the result document cannot be read or
    written, the store is left as it was; results of other quizzes are never
    touched. *)
Theorem handleQuizComplete_xp_in_step faults user quizId title score total
    db s :
  let '(returned, db', s') :=
    handleQuizComplete faults user quizId title score total db s in
  let gained := Z.max 0 returned in
  xp (userStats s') = xp (userStats s) + gained
  ∧ default 0 (achievements_xp db') = default 0 (achievements_xp db) + gained
  ∧ (gained = 0 →
     userStats s' = userStats s ∧ achievements_xp db' = achievements_xp db)
  ∧ (0 < gained → level (userStats s') = xp (userStats s') `div` 100 + 1)
  ∧ xpForNextLevel (userStats s') = xpForNextLevel (userStats s)
  ∧ levelName (userStats s') = levelName (userStats s)
  ∧ (user = None ∨ is_Some (getResultFails faults)
     ∨ is_Some (setResultFails faults) →
     returned = 0 ∧ db' = db ∧ quizzes s' = quizzes s)
  ∧ (∀ other, other ≠ quizId →
       quiz_results db' !! other = quiz_results db !! other).
Proof.
  pose proof (handleQuizComplete_cases faults user quizId title score total
                db s) as H. cbv zeta in H.
  destruct H as [[-> ->]|[(Hu & Hf & ->)|[(Hu & Hg & Hs & Hpos & Hf & ->)
    |[(Hu & Hg & Hs & Hpos & Hf & s' & -> & Hst & Hq)
     |(Hu & Hg & Hs & Hle & s' & -> & Hst & Hq)]]]]; cbv zeta.
  - rewrite Z.max_id, !Z.add_0_r. by repeat split.
  - rewrite Z.max_id, !Z.add_0_r. by repeat split.
  - rewrite Z.max_id, !Z.add_0_r. cbn.
    do 6 (split; [done|]). split.
    + intros [->|[[? ?]|[? ?]]]; [by destruct Hu|congruence..].
    + intros other Hne. by rewrite lookup_insert_ne.
  - rewrite Z.max_r by lia. rewrite Hst. cbn.
    split; [done|]. split; [done|]. split; [lia|]. do 3 (split; [done|]).
    split.
    + intros [->|[[? ?]|[? ?]]]; [by destruct Hu|congruence..].
    + intros other Hne. by rewrite lookup_insert_ne.
  - rewrite Z.max_l by lia. rewrite Hst, !Z.add_0_r. cbn.
    do 2 (split; [done|]). split; [done|]. split; [lia|].
    do 2 (split; [done|]). split.
    + intros [->|[[? ?]|[? ?]]]; [by destruct Hu|congruence..].
    + intros other Hne. by rewrite lookup_insert_ne.
Qed.

(** When the result document is written but the xp write fails on a first
    attempt with correct answers, the handler returns 0 and shows the error
    notice, yet the attempt is recorded: from then on no completion of that
    quiz, whatever its score and whichever calls fail, returns any xp. *)
Theorem handleQuizComplete_xp_lost_on_stats_failure e user quizId title score
    total db s :
  recordedAttempts db quizId = 0 →
  0 < score →
  let '(returned, db', s') :=
    handleQuizComplete (mkFaults None None (Some e)) (Some user) quizId title
      score total db s in
  returned = 0
  ∧ storedAttempts db' quizId = Some 1
  ∧ achievements_xp db' = achievements_xp db
  ∧ userStats s' = userStats s
  ∧ quizzes s' = quizzes s
  ∧ toasts s' = toasts s ++ [("Erro ao salvar seu resultado.", "error")]
  ∧ ∀ faults2 title2 score2 total2,
      (handleQuizComplete faults2 (Some user) quizId title2 score2 total2
         db' s').1.1 = 0.
Proof.
  intros Hfirst Hscore.
  pose proof (handleQuizComplete_cases (mkFaults None None (Some e))
                (Some user) quizId title score total db s) as H.
  cbv zeta in H. rewrite Hfirst in H. cbn [Z.eqb] in H.
  destruct H as [[[=] _]|[(_ & [[? [=]]|[_ [? [=]]]] & _)
    |[(_ & _ & _ & _ & _ & ->)
     |[(_ & _ & _ & _ & [=] & _)|(_ & _ & _ & Hle & _)]]]]; [|lia].
  assert (storedAttempts db quizId = Some 0 ∨ storedAttempts db quizId = None)
    as Hstored.
  { rewrite recordedAttempts_stored in Hfirst.
    destruct (storedAttempts db quizId) as [n|]; [left|by right].
    rewrite num_or0_Some in Hfirst. by subst n. }
  assert (increment 1 (storedAttempts db quizId) = Some 1) as Hinc
    by by destruct Hstored as [-> | ->].
  rewrite Hinc.
  split; [done|]. split.
  { unfold storedAttempts. cbn. by rewrite lookup_insert_eq. }
  do 4 (split; [done|]).
  intros faults2 title2 score2 total2.
  match goal with |- (handleQuizComplete _ _ _ _ _ _ ?d ?t).1.1 = 0 =>
    pose proof (handleQuizComplete_cases faults2 (Some user) quizId title2
                  score2 total2 d t) as H2;
    assert (recordedAttempts d quizId = 1) as Hrec
  end.
  { unfold recordedAttempts. cbn. rewrite lookup_insert_eq. cbn.
    apply (num_or0_Some 1). }
  cbv zeta in H2. rewrite Hrec in H2. cbn [Z.eqb] in H2.
  destruct H2 as [[_ ->]|[(_ & _ & ->)|[(_ & _ & _ & _ & _ & ->)
    |[(_ & _ & _ & Hpos & _)|(_ & _ & _ & _ & s2 & -> & _)]]]];
    first [done|lia].
Qed.

Lemma handleQuizComplete_xp_lost_on_stats_failure_witness :
  let '(returned, db', s') :=
    handleQuizComplete (mkFaults None None (Some "unavailable"))
      (Some Firestore.student) "q1" "Revolução Industrial" 3 5 freshDb
      freshState in
  returned = 0
  ∧ storedAttempts db' "q1" = Some 1
  ∧ achievements_xp db' = achievements_xp freshDb
  ∧ userStats s' = userStats freshState
  ∧ quizzes s' = quizzes freshState
  ∧ toasts s' =
      toasts freshState ++ [("Erro ao salvar seu resultado.", "error")]
  ∧ ∀ faults2 title2 score2 total2,
      (handleQuizComplete faults2 (Some Firestore.student) "q1" title2 score2
         total2 db' s').1.1 = 0.
Proof.
  apply (handleQuizComplete_xp_lost_on_stats_failure "unavailable"
           Firestore.student "q1" "Revolução Industrial" 3 5 freshDb
           freshState).
  - reflexivity.
  - reflexivity.
Defined.

End quiz_facts.

(** ** What joining a class does to the store *)

Section join_facts.
Import Types Store Join.

Lemma handleJoinClass_false_unchanged classesByCode fault user code db :
  (handleJoinClass classesByCode fault user code db).1.1 = false →
  (handleJoinClass classesByCode fault user code db).1.2 = db
  ∧ (∀ f, RefreshData f ∉ (handleJoinClass classesByCode fault user code db).2).
Proof.
  unfold handleJoinClass, runTransaction.
  assert (∀ e f, RefreshData f ∉
            (if String.eqb e "User already in class"
             then [Toast alreadyMemberMessage "info"]
             else [Toast "Erro ao entrar na turma." "error"])) as Herr.
  { intros e f. destruct (String.eqb _ _); set_solver. }
  destruct user as [u|]; [|by split; [|set_solver]].
  destruct (classesByCode code) as [[|classDoc rest]|e]; cbn;
    [by split; [|set_solver]| |by split].
  destruct (isMember u classDoc); cbn; [by split; [|set_solver]|].
  destruct fault as [e|]; cbn; [by split|].
  destruct (joinTransaction u _ _ db) as [db'|e]; cbn; [done|by split].
Qed.

Lemma handleJoinClass_true_inv classesByCode fault user code db db' effects :
  handleJoinClass classesByCode fault user code db = (true, db', effects) →
  ∃ u classDoc rest,
    user = Some u ∧ fault = None
    ∧ classesByCode code = Ok (classDoc :: rest)
    ∧ isMember u classDoc = false
    ∧ joinTransaction u (cls_id classDoc) (cls_teacherId classDoc) db = Ok db'
    ∧ effects =
        [Toast "Entrou na turma com sucesso!" "success"; RefreshData true].
Proof.
  unfold handleJoinClass, runTransaction.
  destruct user as [u|]; [|done].
  destruct (classesByCode code) as [[|classDoc rest]|e]; [done| |done].
  destruct (isMember u classDoc) eqn:Hmem; [done|].
  destruct fault as [e|]; [done|].
  destruct (joinTransaction u _ _ db) as [db1|e] eqn:Htx; [|done].
  intros [= <- <-]. by exists u, classDoc, rest.
Qed.

Lemma joinTransaction_writes user classId teacherId db db' :
  joinTransaction user classId teacherId db = Ok db' →
  ∃ current updated,
    classes db !! classId = Some current
    ∧ classes db' !! classId = Some updated
    ∧ cls_studentIds updated =
        Some (default [] (cls_studentIds current) ++ [user_id user])
    ∧ teacher_history db' !! teacherId =
        Some (default 0 (teacher_history db !! teacherId) + 1)
    ∧ ∀ t, t ≠ teacherId → teacher_history db' !! t = teacher_history db !! t.
Proof.
  unfold joinTransaction.
  destruct (classes db !! classId) as [current|] eqn:Hc; [|done].
  case_bool_decide as Hin; [done|]. intros [= <-].
  eexists current, _. cbn [classes teacher_history].
  rewrite !lookup_insert_eq.
  split; [done|]. split; [done|]. split; [|split; [done|]].
  - cbn. unfold arrayUnion.
    destruct (cls_studentIds current) as [l|]; [|done]. cbn in Hin.
    by rewrite bool_decide_eq_false_2.
  - intros t Hne. by rewrite lookup_insert_ne.
Qed.

(** Joining is all or nothing.  When the handler returns false the store
    is exactly as it was and no refresh is requested.  When it returns true
    the user was not in the id list of the class the code resolved to and is
    appended to it, the student count of that class and the student total of
    the teacher named by the query snapshot both grow by one, no other class
    or teacher is touched, and the success notice is followed by a forced
    refresh. *)
Theorem handleJoinClass_all_or_nothing classesByCode fault user code db :
  let '(ok, db', effects) := handleJoinClass classesByCode fault user code db in
  (ok = false →
     db' = db ∧ (∀ f, RefreshData f ∉ effects) ∧ (user = None → effects = []))
  ∧ (ok = true →
     effects =
       [Toast "Entrou na turma com sucesso!" "success"; RefreshData true]
     ∧ ∃ u classDoc rest current updated,
         user = Some u
         ∧ classesByCode code = Ok (classDoc :: rest)
         ∧ classes db !! cls_id classDoc = Some current
         ∧ (user_id u ∉ default [] (cls_studentIds current))
         ∧ classes db' !! cls_id classDoc = Some updated
         ∧ cls_studentIds updated =
             Some (default [] (cls_studentIds current) ++ [user_id u])
         ∧ cls_studentCount updated = cls_studentCount current + 1
         ∧ (∀ other, other ≠ cls_id classDoc →
              classes db' !! other = classes db !! other)
         ∧ teacher_history db' !! cls_teacherId classDoc =
             Some (default 0 (teacher_history db !! cls_teacherId classDoc) + 1)
         ∧ (∀ t, t ≠ cls_teacherId classDoc →
              teacher_history db' !! t = teacher_history db !! t)).
Proof.
  pose proof (handleJoinClass_false_unchanged classesByCode fault user code db)
    as Hfalse.
  pose proof (handleJoinClass_true_inv classesByCode fault user code db)
    as Htrue.
  destruct (handleJoinClass classesByCode fault user code db)
    as [[ok db'] effects] eqn:Hrun. cbn in Hfalse. split.
  - intros ->. destruct (Hfalse eq_refl) as [-> Hno].
    split; [done|]. split; [done|]. intros ->. cbn in Hrun. congruence.
  - intros ->.
    destruct (Htrue db' effects eq_refl)
      as (u & classDoc & rest & -> & -> & Hq & Hmem & Htx & ->).
    split; [done|].
    destruct (joinTransaction_check_and_set _ _ _ _ _ Htx)
      as (current & updated & Hc & Hnot & Hu & _ & Hcount & Hother).
    destruct (joinTransaction_writes _ _ _ _ _ Htx)
      as (current' & updated' & Hc' & Hu' & Hids & Hth & Hths).
    simplify_eq. by exists u, classDoc, rest, current, updated.
Qed.

(** Nobody joins the same class twice: after a successful join, any later
    attempt of the same user that resolves to the same class document is
    refused and leaves the store, counters included, as the first join left
    it, however stale the query snapshot of the later attempt is. *)
Theorem handleJoinClass_once classesByCode fault u code db db' effects
    classDoc rest classesByCode2 fault2 code2 classDoc2 rest2 :
  handleJoinClass classesByCode fault (Some u) code db = (true, db', effects) →
  classesByCode code = Ok (classDoc :: rest) →
  classesByCode2 code2 = Ok (classDoc2 :: rest2) →
  cls_id classDoc2 = cls_id classDoc →
  let '(ok2, db2, effects2) :=
    handleJoinClass classesByCode2 fault2 (Some u) code2 db' in
  ok2 = false ∧ db2 = db'
  ∧ (fault2 = None → effects2 = [Toast alreadyMemberMessage "info"]).
Proof.
  intros Hjoin Hq Hq2 Hid.
  apply handleJoinClass_true_inv in Hjoin
    as (u' & classDoc' & rest' & [= <-] & -> & Hq' & Hmem & Htx & ->).
  rewrite Hq in Hq'. injection Hq' as <- <-.
  apply joinTransaction_check_and_set in Htx
    as (current & updated & _ & _ & Hu & Hin & _).
  unfold handleJoinClass. rewrite Hq2.
  destruct (isMember u classDoc2); [done|].
  unfold runTransaction, joinTransaction. rewrite Hid, Hu.
  rewrite bool_decide_eq_true_2 by done.
  destruct fault2 as [e|]; [|done]. by destruct (String.eqb _ _).
Qed.

Lemma handleJoinClass_once_witness :
  let '(ok2, db2, effects2) :=
    handleJoinClass (λ _, Ok [staleClass]) None (Some Firestore.student)
      "ABC123"
      (handleJoinClass (λ _, Ok [staleClass]) None (Some Firestore.student)
         "ABC123" (mkDb {["c01" := staleClass]} {["t1" := 1]})).1.2 in
  ok2 = false
  ∧ db2 = (handleJoinClass (λ _, Ok [staleClass]) None
             (Some Firestore.student) "ABC123"
             (mkDb {["c01" := staleClass]} {["t1" := 1]})).1.2
  ∧ (@None string = None → effects2 = [Toast alreadyMemberMessage "info"]).
Proof.
  apply (handleJoinClass_once (λ _, Ok [staleClass]) None Firestore.student
           "ABC123" (mkDb {["c01" := staleClass]} {["t1" := 1]}) _
           [Toast "Entrou na turma com sucesso!" "success"; RefreshData true]
           staleClass [] (λ _, Ok [staleClass]) None "ABC123" staleClass []).
  - vm_compute. reflexivity.
  - reflexivity.
  - reflexivity.
  - reflexivity.
Defined.

End join_facts.

(** ** What the grade report lists *)

Section grade_units.
Import Types Grades.
Context {N : Type} (add : N → N → N) (zero : N).

Local Abbreviation ClassReport := (ClassGradeReport N).



Lemma ownSubmission_signed_out (a : Activity N) : ownSubmission None a = None.
Proof. done. Qed.




End grade_units.

Section grade_units_witness.
Import Types Grades.


End grade_units_witness.

(** ** Handing in an activity *)

Section submit_facts.
Import Types Store Submit SubmitTactics.
Context {N : Type}.
Implicit Types (db : Db N) (s : State N) (data : ActivityDoc N)
  (subs : option (list (ActivitySubmission N))).

Lemma otherSubmissions_none_mine u subs :
  filter (λ x, sub_studentId x = user_id u) (otherSubmissions u subs) = [].
Proof.
  unfold otherSubmissions. apply elem_of_nil_inv.
  intros x [Hx [Hne _]%list_elem_of_filter]%list_elem_of_filter. done.
Qed.

Lemma submissionsOf_replaced u content subs :
  submissionsOf (user_id u)
    (Some (otherSubmissions u subs ++ [submissionData u content])) =
  [submissionData u content].
Proof.
  unfold submissionsOf. cbn [default from_option id].
  rewrite filter_app, otherSubmissions_none_mine.
  by rewrite filter_cons, decide_True.
Qed.

Lemma otherSubmissions_replaced u content subs :
  otherSubmissions u
    (Some (otherSubmissions u subs ++ [submissionData u content])) =
  otherSubmissions u subs.
Proof.
  unfold otherSubmissions at 1. cbn [default from_option id].
  rewrite filter_app, filter_cons, decide_False, filter_nil, app_nil_r
    by (cbn; tauto).
  unfold otherSubmissions. rewrite list_filter_filter.
  apply list_filter_iff. tauto.
Qed.

Lemma submitLocally_mine u activityId content (prev : list (Activity N)) act :
  act ∈ submitLocally u activityId content prev → act_id act = activityId →
  submissionsOf (user_id u) (act_submissions act) = [submissionData u content].
Proof.
  unfold submitLocally.
  intros (a & -> & Hin)%list_elem_of_fmap.
  destruct (String.eqb_spec (act_id a) activityId) as [Heq|Hne]; cbn;
    [|done].
  intros _. apply submissionsOf_replaced.
Qed.

Lemma submitLocally_others u activityId content (prev : list (Activity N)) :
  filter (λ a, act_id a ≠ activityId) (submitLocally u activityId content prev)
  = filter (λ a, act_id a ≠ activityId) prev.
Proof.
  unfold submitLocally. induction prev as [|a l IH]; [done|].
  rewrite fmap_cons, !filter_cons, IH.
  destruct (String.eqb_spec (act_id a) activityId) as [Heq|Hne]; cbn.
  - by rewrite !decide_False by tauto.
  - by rewrite !decide_True.
Qed.

Lemma submitLocally_ids u activityId content (prev : list (Activity N)) :
  act_id <$> submitLocally u activityId content prev = act_id <$> prev.
Proof.
  unfold submitLocally. rewrite <-list_fmap_compose.
  apply list_fmap_ext. intros i a _. cbn. by destruct (negb _).
Qed.

Lemma submitLocally_entries u activityId content
    (prev : list (Activity N)) act :
  act ∈ submitLocally u activityId content prev → act_id act = activityId →
  ∃ original,
    original ∈ prev
    ∧ act_id original = activityId
    ∧ act_submissions act =
        Some (filter (λ x, sub_studentId x ≠ user_id u)
                (default [] (act_submissions original))
              ++ [mkSubmission (user_id u) (user_name u) content
                    AguardandoCorrecao None None]).
Proof.
  unfold submitLocally.
  intros (a & -> & Hin)%list_elem_of_fmap.
  destruct (String.eqb_spec (act_id a) activityId) as [Heq|Hne]; cbn;
    [|done].
  intros _. by exists a.
Qed.

(** Once the activity document is read and both writes go through, the
    document's submissions array is the array without the student's earlier
    entries followed by the entry just sent (the student's id and name, the
    content, status 'Aguardando correção', no grade, no feedback), so the
    student holds exactly that one entry and the entries of other students
    are kept in their order; both counters grow by one and the status is
    'Pendente', the other fields of the document staying as read; the
    subcollection holds the same entry under the student's id; every local
    activity with that id shows its array rewritten in the same way; no other
    activity document, no other subcollection document and no other local
    activity is touched, and the feed keeps its activities in place. *)
Theorem handleActivitySubmit_one_entry faults u activityId content db s data :
  getDocFails faults = None →
  setDocFails faults = None →
  updateDocFails faults = None →
  activityDocs db !! activityId = Some data →
  let '(db', s') :=
    handleActivitySubmit faults (Some u) activityId content db s in
  let mine :=
    mkSubmission (user_id u) (user_name u) content AguardandoCorrecao
      None None in
  let byMe := λ x : ActivitySubmission N, sub_studentId x = user_id u in
  let byOthers := λ x : ActivitySubmission N, sub_studentId x ≠ user_id u in
  (∃ updated,
     activityDocs db' = <[activityId := updated]> (activityDocs db)
     ∧ doc_submissions updated =
         Some (filter byOthers (default [] (doc_submissions data)) ++ [mine])
     ∧ filter byMe (default [] (doc_submissions updated)) = [mine]
     ∧ filter byOthers (default [] (doc_submissions updated)) =
         filter byOthers (default [] (doc_submissions data))
     ∧ doc_status updated = "Pendente"
     ∧ doc_submissionCount updated =
         Some (default 0 (doc_submissionCount data) + 1)
     ∧ doc_pendingSubmissionCount updated =
         Some (default 0 (doc_pendingSubmissionCount data) + 1)
     ∧ doc_title updated = doc_title data
     ∧ doc_classId updated = doc_classId data
     ∧ doc_creatorId updated = doc_creatorId data)
  ∧ submissionDocs db' =
      <[(activityId, user_id u) := mine]> (submissionDocs db)
  ∧ (∀ act, act ∈ activities s' → act_id act = activityId →
       filter byMe (default [] (act_submissions act)) = [mine]
       ∧ ∃ original,
           original ∈ activities s
           ∧ act_id original = activityId
           ∧ act_submissions act =
               Some (filter byOthers (default [] (act_submissions original))
                     ++ [mine]))
  ∧ filter (λ a, act_id a ≠ activityId) (activities s') =
      filter (λ a, act_id a ≠ activityId) (activities s)
  ∧ act_id <$> activities s' = act_id <$> activities s.
Proof.
  intros Hget Hset Hupd Hdoc.
  unfold handleActivitySubmit, submitBody. rewrite Hget, Hdoc, Hset, Hupd.
  set (updated := mkActivityDoc _ _ _ _ _ _ _).
  set (mine := mkSubmission (user_id u) (user_name u) content
                 AguardandoCorrecao None None).
  assert (∀ notes ts,
    let db' := mkDb (<[activityId := updated]> (activityDocs db))
                 (<[(activityId, user_id u) := submissionData u content]>
                    (submissionDocs db)) notes in
    let s' := mkState (submitLocally u activityId content (activities s)) ts in
    let byMe := λ x : ActivitySubmission N, sub_studentId x = user_id u in
    let byOthers := λ x : ActivitySubmission N, sub_studentId x ≠ user_id u in
    (∃ updated0,
       activityDocs db' = <[activityId := updated0]> (activityDocs db)
       ∧ doc_submissions updated0 =
           Some (filter byOthers (default [] (doc_submissions data)) ++ [mine])
       ∧ filter byMe (default [] (doc_submissions updated0)) = [mine]
       ∧ filter byOthers (default [] (doc_submissions updated0)) =
           filter byOthers (default [] (doc_submissions data))
       ∧ doc_status updated0 = "Pendente"
       ∧ doc_submissionCount updated0 =
           Some (default 0 (doc_submissionCount data) + 1)
       ∧ doc_pendingSubmissionCount updated0 =
           Some (default 0 (doc_pendingSubmissionCount data) + 1)
       ∧ doc_title updated0 = doc_title data
       ∧ doc_classId updated0 = doc_classId data
       ∧ doc_creatorId updated0 = doc_creatorId data)
    ∧ submissionDocs db' =
        <[(activityId, user_id u) := mine]> (submissionDocs db)
    ∧ (∀ act, act ∈ activities s' → act_id act = activityId →
         filter byMe (default [] (act_submissions act)) = [mine]
         ∧ ∃ original,
             original ∈ activities s
             ∧ act_id original = activityId
             ∧ act_submissions act =
                 Some (filter byOthers (default [] (act_submissions original))
                       ++ [mine]))
    ∧ filter (λ a, act_id a ≠ activityId) (activities s') =
        filter (λ a, act_id a ≠ activityId) (activities s)
    ∧ act_id <$> activities s' = act_id <$> activities s) as Hshape.
  { intros notes ts db' s' byMe byOthers. subst db' s'.
    cbn [activityDocs submissionDocs activities].
    split; [|split; [done|split; [|split]]].
    - exists updated. split; [done|]. subst updated. cbn.
      split; [done|].
      split; [apply (submissionsOf_replaced u content)|].
      split; [apply (otherSubmissions_replaced u content)|done].
    - intros act Hin Hid.
      split; [by apply (submitLocally_mine u activityId content
                          (activities s))|].
      by apply submitLocally_entries.
    - apply submitLocally_others.
    - apply submitLocally_ids. }
  destruct (doc_creatorId data) as [creatorId|];
    [destruct (String.eqb creatorId EmptyString);
       [|destruct (createNotificationFails faults)]|];
    cbv zeta; by apply Hshape.
Qed.

(** Sending a second answer replaces the first in the array, so the
    student still holds one entry, the latest; the two counters nevertheless
    count both sends. *)
Theorem handleActivitySubmit_resubmission u activityId content1 content2
    db s data :
  activityDocs db !! activityId = Some data →
  let '(db1, s1) :=
    handleActivitySubmit noFaults (Some u) activityId content1 db s in
  let '(db2, s2) :=
    handleActivitySubmit noFaults (Some u) activityId content2 db1 s1 in
  ∃ updated,
    activityDocs db2 !! activityId = Some updated
    ∧ doc_submissions updated =
        Some (otherSubmissions u (doc_submissions data)
              ++ [submissionData u content2])
    ∧ doc_submissionCount updated =
        Some (default 0 (doc_submissionCount data) + 2)
    ∧ doc_pendingSubmissionCount updated =
        Some (default 0 (doc_pendingSubmissionCount data) + 2)
    ∧ submissionDocs db2 !! (activityId, user_id u) =
        Some (submissionData u content2).
Proof.
  intros Hdoc.
  assert (∀ (docs : gmap string (ActivityDoc N))
            (subsDocs : gmap (string * string) (ActivitySubmission N))
            notes acts ts d,
    docs !! activityId = Some d →
    ∃ notes' ts',
      handleActivitySubmit noFaults (Some u) activityId content2
        (mkDb docs subsDocs notes) (mkState acts ts) =
      (mkDb (<[activityId :=
                 mkActivityDoc (doc_title d) (doc_classId d) (doc_creatorId d)
                   (Some (otherSubmissions u (doc_submissions d)
                          ++ [submissionData u content2]))
                   "Pendente"
                   (increment 1 (doc_pendingSubmissionCount d))
                   (increment 1 (doc_submissionCount d))]> docs)
         (<[(activityId, user_id u) := submissionData u content2]> subsDocs)
         notes',
       mkState (submitLocally u activityId content2 acts) ts')) as Hrun.
  { intros docs subsDocs notes acts ts d Hd.
    unfold handleActivitySubmit, submitBody, noFaults.
    cbn [getDocFails setDocFails updateDocFails createNotificationFails
         activityDocs submissionDocs notified activities toasts].
    rewrite Hd.
    destruct (doc_creatorId d) as [creatorId|];
      [destruct (String.eqb creatorId EmptyString)|]; by eexists _, _. }
  unfold handleActivitySubmit at 1, submitBody, noFaults.
  cbn [getDocFails setDocFails updateDocFails createNotificationFails].
  rewrite Hdoc.
  set (d1 := mkActivityDoc _ _ _ _ _ _ _).
  assert (∀ notes ts,
    let '(db2, s2) :=
      handleActivitySubmit noFaults (Some u) activityId content2
        (mkDb (<[activityId := d1]> (activityDocs db))
           (<[(activityId, user_id u) := submissionData u content1]>
              (submissionDocs db)) notes)
        (mkState (submitLocally u activityId content1 (activities s)) ts) in
    ∃ updated,
      activityDocs db2 !! activityId = Some updated
      ∧ doc_submissions updated =
          Some (otherSubmissions u (doc_submissions data)
                ++ [submissionData u content2])
      ∧ doc_submissionCount updated =
          Some (default 0 (doc_submissionCount data) + 2)
      ∧ doc_pendingSubmissionCount updated =
          Some (default 0 (doc_pendingSubmissionCount data) + 2)
      ∧ submissionDocs db2 !! (activityId, user_id u) =
          Some (submissionData u content2)) as Hsecond.
  { intros notes ts.
    edestruct (Hrun (<[activityId := d1]> (activityDocs db))) as
      (notes' & ts' & ->); [apply lookup_insert_eq|].
    eexists. cbn [activityDocs submissionDocs].
    rewrite !lookup_insert_eq. split; [done|]. subst d1.
    cbn -[otherSubmissions]. rewrite otherSubmissions_replaced.
    unfold increment. cbn [default from_option id].
    split; [done|]. split; [f_equal; lia|]. split; [f_equal; lia|done]. }
  destruct (doc_creatorId data) as [creatorId|];
    [destruct (String.eqb creatorId EmptyString)|];
    cbv zeta; cbn [addToast activities toasts]; apply Hsecond.
Qed.

Lemma submitLocally_explicit u activityId content
    (prev : list (Activity N)) :
  submitLocally u activityId content prev =
  (λ act,
     if decide (act_id act = activityId) then
       mkActivity (act_id act) (act_title act) (act_classId act)
         (act_className act) (act_unidade act) (act_points act)
         (act_isVisible act) (act_createdAt act)
         (Some (filter (λ x, sub_studentId x ≠ user_id u)
                  (default [] (act_submissions act))
                ++ [mkSubmission (user_id u) (user_name u) content
                      AguardandoCorrecao None None]))
     else act) <$> prev.
Proof.
  unfold submitLocally. apply list_fmap_ext. intros _ act _.
  destruct (String.eqb_spec (act_id act) activityId) as [Heq|Hne]; cbn.
  - by rewrite decide_True.
  - by rewrite decide_False.
Qed.

(** What goes wrong, and how far.  Without a signed-in user, or when the
    activity document does not exist, nothing happens and nothing is shown.
    When the read or the first write fails, the store and the feed stay as
    they were and the error notice is shown.  When the update of the activity
    document fails, the subcollection entry is already written but the
    document, its counters and the feed are not.  When only the notification
    of the teacher fails, everything is written (the activity document with
    the rewritten array, the status and both counters, and the subcollection
    entry) and the feed is updated, yet no notification is recorded and the
    error notice is shown.  In every case the feed keeps its activities in
    place and at most one notice is shown. *)
Theorem handleActivitySubmit_failure_modes faults user activityId content
    db s :
  let '(db', s') := handleActivitySubmit faults user activityId content db s in
  let failed :=
    mkState (activities s)
      (toasts s ++ [("Erro ao enviar atividade.", "error")]) in
  (user = None
   ∨ (getDocFails faults = None ∧ activityDocs db !! activityId = None) →
   db' = db ∧ s' = s)
  ∧ (is_Some user →
     is_Some (getDocFails faults)
     ∨ (is_Some (activityDocs db !! activityId)
        ∧ is_Some (setDocFails faults)) →
     db' = db ∧ s' = failed)
  ∧ (∀ u, user = Some u → getDocFails faults = None →
       setDocFails faults = None → is_Some (activityDocs db !! activityId) →
       is_Some (updateDocFails faults) →
       activityDocs db' = activityDocs db
       ∧ submissionDocs db' =
           <[(activityId, user_id u) :=
               mkSubmission (user_id u) (user_name u) content
                 AguardandoCorrecao None None]> (submissionDocs db)
       ∧ notified db' = notified db
       ∧ s' = failed)
  ∧ (∀ u data creatorId, user = Some u → getDocFails faults = None →
       setDocFails faults = None → updateDocFails faults = None →
       activityDocs db !! activityId = Some data →
       doc_creatorId data = Some creatorId → creatorId ≠ EmptyString →
       is_Some (createNotificationFails faults) →
       let mine :=
         mkSubmission (user_id u) (user_name u) content AguardandoCorrecao
           None None in
       let byOthers :=
         λ x : ActivitySubmission N, sub_studentId x ≠ user_id u in
       activityDocs db' =
         <[activityId :=
             mkActivityDoc (doc_title data) (doc_classId data)
               (doc_creatorId data)
               (Some (filter byOthers (default [] (doc_submissions data))
                      ++ [mine]))
               "Pendente"
               (Some (default 0 (doc_pendingSubmissionCount data) + 1))
               (Some (default 0 (doc_submissionCount data) + 1))]>
           (activityDocs db)
       ∧ submissionDocs db' =
           <[(activityId, user_id u) := mine]> (submissionDocs db)
       ∧ notified db' = notified db
       ∧ activities s' =
           (λ act,
              if decide (act_id act = activityId) then
                mkActivity (act_id act) (act_title act) (act_classId act)
                  (act_className act) (act_unidade act) (act_points act)
                  (act_isVisible act) (act_createdAt act)
                  (Some (filter byOthers (default [] (act_submissions act))
                         ++ [mine]))
              else act) <$> activities s
       ∧ toasts s' = toasts s ++ [("Erro ao enviar atividade.", "error")])
  ∧ act_id <$> activities s' = act_id <$> activities s
  ∧ ∃ shown, toasts s' = toasts s ++ shown ∧ (length shown ≤ 1)%nat.
Proof.
  pose proof submitLocally_ids as Hids.
  pose proof submitLocally_explicit as Hfeed.
  pose (none := @nil (string * string)).
  pose (failure := [("Erro ao enviar atividade.", "error")]).
  pose (success := [("Atividade enviada com sucesso!", "success")]).
  unfold handleActivitySubmit, submitBody.
  destruct user as [u|]; [|leaf none ltac:(apply Hids) idtac].
  destruct (getDocFails faults) as [e1|] eqn:Hget;
    [leaf failure ltac:(apply Hids) idtac|].
  destruct (activityDocs db !! activityId) as [data|] eqn:Hdoc;
    [|leaf none ltac:(apply Hids) idtac].
  destruct (setDocFails faults) as [e2|] eqn:Hset;
    [leaf failure ltac:(apply Hids) idtac|].
  destruct (updateDocFails faults) as [e3|] eqn:Hupd;
    [leaf failure ltac:(apply Hids) idtac|].
  destruct (doc_creatorId data) as [creatorId|] eqn:Hcreator;
    [destruct (String.eqb_spec creatorId EmptyString) as [Hempty|Hfull];
       [|destruct (createNotificationFails faults) as [e4|] eqn:Hnotify]|];
    cbv zeta; cbn [addToast activities toasts notified].
  - leaf success ltac:(apply Hids) idtac.
  - leaf failure ltac:(apply Hids)
      ltac:(intros; simplify_eq; cbn; rewrite Hfeed, ?Hcreator;
             split_and!; reflexivity).
  - leaf success ltac:(apply Hids) idtac.
  - leaf success ltac:(apply Hids) idtac.
Qed.

End submit_facts.

Section submit_grades.
Import Types Store Submit Grades.
Context {N : Type} (add : N → N → N) (zero : N).

Lemma find_own_after_others u content
    (subs : option (list (ActivitySubmission N))) :
  List.find (λ x, String.eqb (sub_studentId x) (user_id u))
    (otherSubmissions u subs ++ [submissionData u content]) =
  Some (submissionData u content).
Proof.
  unfold otherSubmissions.
  induction (default [] subs) as [|x l IH].
  - cbn. by rewrite String.eqb_refl.
  - rewrite filter_cons. case_decide as Hx; [|done].
    apply String.eqb_neq in Hx. cbn. by rewrite Hx.
Qed.

Lemma gradeReport_submitLocally u classes activityId content
    (prev : list (Activity N)) :
  gradeReport add zero (Some u) classes
    (submitLocally u activityId content prev) =
  gradeReport add zero (Some u) classes
    (filter (λ a, act_id a ≠ activityId) prev).
Proof.
  unfold gradeReport. generalize (foldl
    (λ report cls, <[cls_id cls := mkClassReport (cls_name cls) ∅]> report)
    (∅ : gmap string (ClassGradeReport N)) classes).
  unfold submitLocally.
  induction prev as [|a l IH]; intros report; [done|].
  rewrite fmap_cons, filter_cons. cbn [foldl].
  destruct (String.eqb_spec (act_id a) activityId) as [Heq|Hne]; cbn [negb].
  - rewrite decide_False by tauto. rewrite <-IH. f_equal.
    unfold gradeStep, ownSubmission. cbn [act_classId act_submissions].
    destruct (report !! act_classId a); [|done].
    by rewrite find_own_after_others.
  - rewrite decide_True by done. cbn [foldl]. apply IH.
Qed.

(** Handing in an activity withdraws it from the grade report: once the
    activity document is updated, the report computed from the feed is the
    report of the feed without that activity, whatever grade the student
    held on it before. *)
Theorem handleActivitySubmit_grade_withdrawn faults u activityId content
    (db : Db N) (s : State N) data classes :
  getDocFails faults = None →
  setDocFails faults = None →
  updateDocFails faults = None →
  activityDocs db !! activityId = Some data →
  let s' := (handleActivitySubmit faults (Some u) activityId content db s).2 in
  gradeReport add zero (Some u) classes (activities s') =
  gradeReport add zero (Some u) classes
    (filter (λ a, act_id a ≠ activityId) (activities s)).
Proof.
  intros Hget Hset Hupd Hdoc.
  unfold handleActivitySubmit, submitBody. rewrite Hget, Hdoc, Hset, Hupd.
  destruct (doc_creatorId data) as [creatorId|];
    [destruct (String.eqb creatorId EmptyString);
       [|destruct (createNotificationFails faults)]|];
    cbv zeta; cbn [snd addToast activities];
    apply gradeReport_submitLocally.
Qed.

End submit_grades.

Section submit_witnesses.
Import Types Store Submit Grades.

Lemma handleActivitySubmit_one_entry_witness :
  let u := Firestore.student in
  let '(db', s') :=
    handleActivitySubmit noFaults (Some u) "a1" "segunda" sampleDb
      sampleState in
  let mine :=
    mkSubmission (N:=Z) (user_id u) (user_name u) "segunda"
      AguardandoCorrecao None None in
  let byMe := λ x : ActivitySubmission Z, sub_studentId x = user_id u in
  let byOthers := λ x : ActivitySubmission Z, sub_studentId x ≠ user_id u in
  (∃ updated,
     activityDocs db' = <["a1" := updated]> (activityDocs sampleDb)
     ∧ doc_submissions updated =
         Some (filter byOthers (default [] (doc_submissions sampleDoc))
               ++ [mine])
     ∧ filter byMe (default [] (doc_submissions updated)) = [mine]
     ∧ filter byOthers (default [] (doc_submissions updated)) =
         filter byOthers (default [] (doc_submissions sampleDoc))
     ∧ doc_status updated = "Pendente"
     ∧ doc_submissionCount updated =
         Some (default 0 (doc_submissionCount sampleDoc) + 1)
     ∧ doc_pendingSubmissionCount updated =
         Some (default 0 (doc_pendingSubmissionCount sampleDoc) + 1)
     ∧ doc_title updated = doc_title sampleDoc
     ∧ doc_classId updated = doc_classId sampleDoc
     ∧ doc_creatorId updated = doc_creatorId sampleDoc)
  ∧ submissionDocs db' =
      <[("a1", user_id u) := mine]> (submissionDocs sampleDb)
  ∧ (∀ act, act ∈ activities s' → act_id act = "a1" →
       filter byMe (default [] (act_submissions act)) = [mine]
       ∧ ∃ original,
           original ∈ activities sampleState
           ∧ act_id original = "a1"
           ∧ act_submissions act =
               Some (filter byOthers (default [] (act_submissions original))
                     ++ [mine]))
  ∧ filter (λ a, act_id a ≠ "a1") (activities s') =
      filter (λ a, act_id a ≠ "a1") (activities sampleState)
  ∧ act_id <$> activities s' = act_id <$> activities sampleState.
Proof.
  apply (handleActivitySubmit_one_entry noFaults Firestore.student "a1"
           "segunda" sampleDb sampleState sampleDoc); reflexivity.
Defined.

Lemma handleActivitySubmit_resubmission_witness :
  let u := Firestore.student in
  let '(db1, s1) :=
    handleActivitySubmit noFaults (Some u) "a1" "segunda" sampleDb
      sampleState in
  let '(db2, s2) :=
    handleActivitySubmit noFaults (Some u) "a1" "terceira" db1 s1 in
  ∃ updated,
    activityDocs db2 !! "a1" = Some updated
    ∧ doc_submissions updated =
        Some (otherSubmissions u (doc_submissions sampleDoc)
              ++ [submissionData u "terceira"])
    ∧ doc_submissionCount updated =
        Some (default 0 (doc_submissionCount sampleDoc) + 2)
    ∧ doc_pendingSubmissionCount updated =
        Some (default 0 (doc_pendingSubmissionCount sampleDoc) + 2)
    ∧ submissionDocs db2 !! ("a1", user_id u) =
        Some (submissionData u "terceira").
Proof.
  apply (handleActivitySubmit_resubmission Firestore.student "a1" "segunda"
           "terceira" sampleDb sampleState sampleDoc); reflexivity.
Defined.

Lemma handleActivitySubmit_grade_withdrawn_witness :
  let u := Firestore.student in
  let s' :=
    (handleActivitySubmit noFaults (Some u) "a1" "segunda" sampleDb
       sampleState).2 in
  gradeReport Z.add 0 (Some u) [Firestore.classNamed "c01"] (activities s') =
  gradeReport Z.add 0 (Some u) [Firestore.classNamed "c01"]
    (filter (λ a, act_id a ≠ "a1") (activities sampleState)).
Proof.
  apply (handleActivitySubmit_grade_withdrawn Z.add 0 noFaults
           Firestore.student "a1" "segunda" sampleDb sampleState sampleDoc
           [Firestore.classNamed "c01"]); reflexivity.
Defined.

End submit_witnesses.
